(** * microtap: the test execution engine and its TAP version 14 report

    A shallow embedding of [microtap.py] (the TAP producer for MicroPython)
    and the properties of its plan runner and session orchestrator.

    Modelling conventions.
    - A Python [str] is a [string]; [Optional[str]] is [option string].
    - The module targets MicroPython ([sys.print_exception], [os.ilistdir]),
      so [str.strip] and [str.splitlines] follow MicroPython: white space is
      space, TAB, LF, VT, FF and CR; lines end at LF, CR or CR LF.
    - An exception carries the class that decides which [except] clause
      takes it, its [args], each of them a [str] or an object of another
      type, and the text [sys.print_exception] prints for it.  Joining
      [args] raises [TypeError] when one of them is not a [str].
    - A test point is a function of the state of the world outside the
      report: it returns normally or raises, and leaves a new world.  The
      report stream belongs to the runner; it is the list of the texts
      handed to [stream.write], oldest first. *)

From Stdlib Require Import List String Ascii Bool Arith NArith Lia DecimalString.
Import ListNotations.
Open Scope list_scope.
Open Scope string_scope.

(** [++] joins strings; [+++] joins lists. *)
Infix "+++" := (@List.app _) (at level 60, right associativity).

(** ** Python's string primitives *)

Module Py.

Definition LF : ascii := "010"%char.
Definition CR : ascii := "013"%char.
Definition nl : string := String LF "".

(** [unichar_isspace]: the characters [str.strip] removes. *)
Definition isspace (c : ascii) : bool :=
  let n := nat_of_ascii c in
  Nat.eqb n 32 || (Nat.leb 9 n && Nat.leb n 13).

Fixpoint lstrip (s : string) : string :=
  match s with
  | "" => ""
  | String c s' => if isspace c then lstrip s' else s
  end.

Fixpoint rstrip (s : string) : string :=
  match s with
  | "" => ""
  | String c s' =>
      let r := rstrip s' in
      if isspace c && (r =? "") then "" else String c r
  end.

(** [s.strip()] *)
Definition strip (s : string) : string := rstrip (lstrip s).

(** [s.replace(old, new)] for a non-empty [old]: the occurrences of [old]
    are taken from the left and do not overlap; [skip] counts the characters
    of an occurrence that are still to be dropped. *)
Fixpoint replace_from (old new s : string) (skip : nat) : string :=
  match s with
  | "" => ""
  | String c s' =>
      match skip with
      | S k => replace_from old new s' k
      | O =>
          if prefix old s
          then new ++ replace_from old new s' (String.length old - 1)
          else String c (replace_from old new s' 0)
      end
  end.

Definition replace (old new s : string) : string := replace_from old new s 0.

(** [sep.join(items)] *)
Definition join (sep : string) (items : list string) : string :=
  String.concat sep items.

Definition is_break (c : ascii) : bool :=
  Ascii.eqb c LF || Ascii.eqb c CR.

(** [s.splitlines()]: the line ends are not kept, and a final line end
    opens no further line. *)
Fixpoint splitlines (s : string) : list string :=
  match s with
  | "" => []
  | String c s' =>
      if Ascii.eqb c LF then "" :: splitlines s'
      else if Ascii.eqb c CR then
        match s' with
        | String c' s'' =>
            if Ascii.eqb c' LF then "" :: splitlines s''
            else "" :: splitlines s'
        | "" => [""]
        end
      else
        match splitlines s' with
        | [] => [String c ""]
        | l :: ls => String c l :: ls
        end
  end.

(** [" " * n] *)
Fixpoint spaces (n : nat) : string :=
  match n with
  | O => ""
  | S k => String " " (spaces k)
  end.

(** [f"{n}"] for a non-negative integer. *)
Definition str_of_nat (n : nat) : string :=
  NilZero.string_of_uint (Nat.to_uint n).

(** [f"{x}"] for an [Optional[str]]: [None] prints as its name. *)
Definition str_of_opt (x : option string) : string :=
  match x with
  | Some s => s
  | None => "None"
  end.

(** Truth value of an [Optional[str]]: neither [None] nor empty. *)
Definition truthy (x : option string) : bool :=
  match x with
  | Some s => negb (s =? "")
  | None => false
  end.

End Py.

Import Py.

(** ** Module-level helpers *)

Definition backslash : string := "\".
Definition hash : string := "#".

Definition _escape_string (str : option string) : option string :=
  match str with
  | None => None
  | Some s =>
      if negb (negb (s =? "") && negb (strip s =? ""))
      then None
      else Some (strip (replace hash (backslash ++ hash)
                          (replace backslash (backslash ++ backslash) s)))
  end.

Definition _trim_empty_to_none (str : option string) : option string :=
  match str with
  | None => None
  | Some s =>
      if negb (negb (s =? "") && negb (strip s =? ""))
      then None
      else Some (strip s)
  end.

(** ** Exceptions *)

(** The class of a raised object, as far as the [except] clauses of the
    module tell classes apart.  [ClsException] is any other subclass of
    [Exception]; [ClsBaseException] is a class outside [Exception]
    ([KeyboardInterrupt], [SystemExit]). *)
Inductive exn_class : Type :=
  | ClsSkip
  | ClsToDo
  | ClsFail
  | ClsBailOut
  | ClsException
  | ClsBaseException.

(** An item of [exception.args]: a [str], or an object that is none (an
    [int], say, as in [OSError(2)]). *)
Inductive pyarg : Type :=
  | Str (s : string)
  | NotStr.

Record exn : Type := mkExn {
  exn_cls : exn_class;
  exn_args : list pyarg;       (* [exception.args] *)
  exn_printed : string         (* what [sys.print_exception] writes *)
}.

Definition is_BailOut (e : exn) : bool :=
  match exn_cls e with ClsBailOut => true | _ => false end.

(** The directives of a test point line. *)
Inductive directive : Type := SKIP | TODO.

Definition directive_name (d : directive) : string :=
  match d with SKIP => "SKIP" | TODO => "TODO" end.

(** The end of a computation: a value, or an exception in flight. *)
Inductive result (A : Type) : Type :=
  | Return (a : A)
  | Raise (e : exn).
Arguments Return {A} a.
Arguments Raise {A} e.

(** The [TypeError] of [str.join] on an item that is not a [str], with
    MicroPython's message.  It is raised inside the [except] handlers of
    the module, which no clause of the module catches: nothing there
    prints it. *)
Definition join_TypeError : exn :=
  mkExn ClsException
    [Str "join expects a list of str/bytes objects consistent with self object"]
    "".

(** The items when all of them are [str]. *)
Fixpoint strs (items : list pyarg) : option (list string) :=
  match items with
  | [] => Some []
  | Str s :: rest =>
      match strs rest with
      | Some ss => Some (s :: ss)
      | None => None
      end
  | NotStr :: _ => None
  end.

(** [sep.join(exception.args)] *)
Definition join_args (sep : string) (items : list pyarg) : result string :=
  match strs items with
  | Some ss => Return (join sep ss)
  | None => Raise join_TypeError
  end.

(** ** The engine *)

Section Engine.

Variable World : Type.

(** A test point: called with no arguments in some world, it returns
    normally ([None]) or raises, and leaves a world. *)
Definition test_fn : Type := World -> option exn * World.

Record Plan : Type := mkPlan {
  file_name : string;
  description : option string;
  skipped : bool;
  test_points : list (test_fn * option string)
}.

(** [Plan.__init__] and [Plan.add_test_point]. *)
Definition Plan_init (file_name : string) (description : option string)
    (skipped : bool) : Plan :=
  mkPlan file_name (_trim_empty_to_none description) skipped [].

Definition add_test_point (self : Plan) (test_point : test_fn)
    (description0 : option string) : Plan :=
  mkPlan (file_name self) (description self) (skipped self)
         (test_points self +++ [(test_point, _trim_empty_to_none description0)]).

(** *** Computations: a state and the exception in flight *)

Record State : Type := mkState {
  world : World;
  stream : list string      (* the arguments of [stream.write], in order *)
}.

Definition M (A : Type) : Type := State -> result A * State.

Definition ret {A} (a : A) : M A := fun st => (Return a, st).

Definition bind {A B} (m : M A) (k : A -> M B) : M B :=
  fun st =>
    match m st with
    | (Return a, st') => k a st'
    | (Raise e, st') => (Raise e, st')
    end.

Definition raise {A} (e : exn) : M A := fun st => (Raise e, st).

(** An expression that gives a value or raises, with no effect. *)
Definition eval {A} (r : result A) : M A := fun st => (r, st).

Local Notation "x <- m ;; k" := (bind m (fun x => k))
  (at level 61, m at next level, right associativity).
Local Notation "m ;; k" := (bind m (fun _ => k))
  (at level 61, right associativity).

(** [try: body / except ...: handler]: [handler e] is [None] when no
    clause matches [e], which then stays in flight. *)
Definition try_except {A} (body : M A) (handler : exn -> option (M A)) : M A :=
  fun st =>
    match body st with
    | (Return a, st') => (Return a, st')
    | (Raise e, st') =>
        match handler e with
        | Some h => h st'
        | None => (Raise e, st')
        end
    end.

(** [for index, x in enumerate(items, start=index)], threading the
    variables [s] the body assigns. *)
Fixpoint for_enumerate {A V} (body : nat -> A -> V -> M V)
    (items : list A) (index : nat) (s : V) : M V :=
  match items with
  | [] => ret s
  | x :: rest => s' <- body index x s ;; for_enumerate body rest (S index) s'
  end.

(** [for x in items: body(x)] *)
Fixpoint for_each {A} (body : A -> M unit) (items : list A) : M unit :=
  match items with
  | [] => ret tt
  | x :: rest => body x ;; for_each body rest
  end.

(** Calling a test point. *)
Definition call (f : test_fn) : M unit :=
  fun st =>
    let (o, w) := f (world st) in
    (match o with None => Return tt | Some e => Raise e end,
     mkState w (stream st)).

(** *** The report writer *)

Definition writer : Type := string -> M unit.

Definition _build_stream_writer (indentation_level : nat) : writer :=
  let prefix := spaces indentation_level in
  fun string0 st =>
    (Return tt, mkState (world st) (stream st +++ [prefix ++ string0 ++ nl])).

(** *** Formatting *)

Definition _format_exception (exception : exn) : result string :=
  let stream := "---" ++ nl in
  match join_args " " (exn_args exception) with
  | Raise e => Raise e
  | Return message =>
      let stream := stream ++ "exception: " ++ message ++ nl in
      let stream := stream ++ "traceback: |-" ++ nl in
      let stream :=
        fold_left (fun acc line => acc ++ "  " ++ line ++ nl)
                  (splitlines (exn_printed exception)) stream in
      Return (stream ++ "..." ++ nl)
  end.

Definition _write_test_result (stream_writer : writer)
    (description : option string) (index : nat) (success : bool)
    (dir : option directive) (directive_description : option string)
    : M unit :=
  let string0 := if success then "ok" else "not ok" in
  let string0 := string0 ++ " " ++ str_of_nat index in
  let string0 :=
    if truthy description
    then string0 ++ " - " ++ str_of_opt description
    else string0 in
  let string0 :=
    match dir with
    | Some d =>
        let string1 := string0 ++ " # " ++ directive_name d in
        let escaped_directive_description :=
          _escape_string directive_description in
        if truthy escaped_directive_description
        then string1 ++ " " ++ str_of_opt escaped_directive_description
        else string1
    | None => string0
    end in
  stream_writer string0.

Definition _format_bailout_exception (exception : exn) : result string :=
  match join_args " " (exn_args exception) with
  | Raise e => Raise e
  | Return message =>
      Return (strip ("Bail out! "
                     ++ str_of_opt (_escape_string (Some message)))
              ++ nl)
  end.

(** *** The plan runner *)

(** The body of the loop of [_execute_test_plan]; [success] is the
    variable of that name, and the value returned is its new value. *)
Definition test_point_step (stream_writer : writer) (index : nat)
    (test : test_fn * option string) (success : bool) : M bool :=
  let (test_function, test_description) := test in
  try_except
    (call test_function ;;
     _write_test_result stream_writer test_description index true None None ;;
     ret success)
    (fun exception =>
       match exn_cls exception with
       | ClsSkip =>
           Some (directive_description <-
                   eval (join_args " " (exn_args exception)) ;;
                 _write_test_result stream_writer test_description index true
                   (Some SKIP) (Some directive_description) ;;
                 ret success)
       | ClsToDo =>
           Some (directive_description <-
                   eval (join_args " " (exn_args exception)) ;;
                 _write_test_result stream_writer test_description index false
                   (Some TODO) (Some directive_description) ;;
                 ret success)
       | ClsFail =>
           Some (_write_test_result stream_writer test_description index false
                   None None ;;
                 ret false)
       | ClsBailOut => Some (raise exception)
       | ClsException =>
           Some (_write_test_result stream_writer test_description index false
                   None None ;;
                 text <- eval (_format_exception exception) ;;
                 for_each (fun line => stream_writer ("  " ++ rstrip line))
                          (splitlines text) ;;
                 ret false)
       | ClsBaseException => None
       end).

Definition _execute_test_plan (plan : Plan) (stream_writer : writer) : M bool :=
  if match test_points plan with [] => true | _ => false end || skipped plan
  then
    let header := "1..0" in
    let header :=
      if truthy (description plan)
      then header ++ " # SKIP " ++ str_of_opt (_escape_string (description plan))
      else header in
    stream_writer header ;;
    ret true
  else
    stream_writer ("1.." ++ str_of_nat (List.length (test_points plan))) ;;
    for_enumerate (test_point_step stream_writer) (test_points plan) 1 true.

(** *** The session orchestrator *)

(** The [plans] argument with the type the code tests: a [Plan], a [list],
    a [tuple], or another sized iterable of plans. *)
Inductive plans_arg : Type :=
  | OnePlan (plan : Plan)
  | PlanList (plans : list Plan)
  | PlanTuple (plans : list Plan)
  | PlanSeq (plans : list Plan).

Definition plans_of (plans : plans_arg) : list Plan :=
  match plans with
  | OnePlan plan => [plan]
  | PlanList ps | PlanTuple ps | PlanSeq ps => ps
  end.

(** The [single_plan] flag and the [plan] it comes with. *)
Definition single_plan (plans : plans_arg) : option Plan :=
  match plans with
  | OnePlan plan => Some plan
  | PlanList [plan] | PlanTuple [plan] => Some plan
  | _ => None
  end.

Definition bailout_handler {A} (stream_writer : writer) (a : A)
    (exception : exn) : option (M A) :=
  if is_BailOut exception
  then Some (text <- eval (_format_bailout_exception exception) ;;
             stream_writer text ;;
             ret a)
  else None.

(** The loop over the plans; [None] is the [return] taken after a bail
    out, [Some results] the list [results] when the loop ends. *)
Fixpoint plans_loop (plans : list Plan) (results : list bool)
    : M (option (list bool)) :=
  match plans with
  | [] => ret (Some results)
  | plan :: rest =>
      r <- try_except
             (_build_stream_writer 0 ("# Tests for " ++ file_name plan) ;;
              success <- _execute_test_plan plan (_build_stream_writer 4) ;;
              ret (Some (results +++ [success])))
             (bailout_handler (_build_stream_writer 0) None) ;;
      match r with
      | Some results' => plans_loop rest results'
      | None => ret None
      end
  end.

(** One roll-up line. *)
Definition rollup_step (stream_writer : writer) (index : nat)
    (plan_result : Plan * bool) (_ : unit) : M unit :=
  let (plan, success) := plan_result in
  let result0 := if success then "ok" else "not ok" in
  let result0 := result0 ++ " " ++ str_of_nat index in
  let result0 :=
    if truthy (description plan)
    then result0 ++ " - " ++ str_of_opt (description plan)
    else result0 in
  stream_writer result0.

Definition execute_test_plans (plans : plans_arg) (root_plan : bool) : M unit :=
  let stream_writer := _build_stream_writer 0 in
  stream_writer "TAP version 14" ;;
  match single_plan plans with
  | Some plan =>
      try_except
        (_execute_test_plan plan stream_writer ;; ret tt)
        (bailout_handler stream_writer tt)
  | None =>
      (if root_plan
       then stream_writer ("1.." ++ str_of_nat (List.length (plans_of plans)))
       else ret tt) ;;
      r <- plans_loop (plans_of plans) [] ;;
      match r with
      | None => ret tt
      | Some results =>
          if root_plan
          then for_enumerate (rollup_step stream_writer)
                             (combine (plans_of plans) results) 1 tt
          else ret tt
      end
  end.

End Engine.

Arguments mkPlan {World}.
Arguments file_name {World}.
Arguments description {World}.
Arguments skipped {World}.
Arguments test_points {World}.
Arguments Plan_init {World}.
Arguments add_test_point {World}.
Arguments mkState {World}.
Arguments world {World}.
Arguments stream {World}.
Arguments ret {World A}.
Arguments bind {World A B}.
Arguments raise {World A}.
Arguments eval {World A}.
Arguments try_except {World A}.
Arguments for_enumerate {World A V}.
Arguments for_each {World A}.
Arguments call {World}.
Arguments _build_stream_writer {World}.
Arguments _write_test_result {World}.
Arguments test_point_step {World}.
Arguments _execute_test_plan {World}.
Arguments OnePlan {World}.
Arguments PlanList {World}.
Arguments PlanTuple {World}.
Arguments PlanSeq {World}.
Arguments plans_of {World}.
Arguments single_plan {World}.
Arguments bailout_handler {World A}.
Arguments plans_loop {World}.
Arguments rollup_step {World}.
Arguments execute_test_plans {World}.

(** ** Vocabulary of the statements *)

(** The escaping rule in the specification's words: each character on its
    own, a backslash doubled and a hash preceded by a backslash. *)
Definition escape_char_spec (c : ascii) : string :=
  if Ascii.eqb c "\"%char then "\\"
  else if Ascii.eqb c "#"%char then "\#"
  else String c "".

Fixpoint escape_spec (s : string) : string :=
  match s with
  | "" => ""
  | String c s' => escape_char_spec c ++ escape_spec s'
  end.

(** A string of white space only (the empty one included). *)
Fixpoint blank (s : string) : bool :=
  match s with
  | "" => true
  | String c s' => isspace c && blank s'
  end.

(** A string that does not start with white space. *)
Definition head_clean (s : string) : bool :=
  match s with
  | "" => true
  | String c _ => negb (isspace c)
  end.

(** A string with no line end in it. *)
Fixpoint no_break (s : string) : bool :=
  match s with
  | "" => true
  | String c s' => negb (is_break c) && no_break s'
  end.

(** The state after [lines] went through the writer of indentation [n]. *)
Definition written {World} (n : nat) (lines : list string)
    (st : State World) : State World :=
  mkState (world st)
          (stream st +++ map (fun l => spaces n ++ l ++ nl) lines).

(** The parts of a test point line. *)
Definition status_text (success : bool) : string :=
  if success then "ok" else "not ok".

Definition description_text (description : option string) : string :=
  if truthy description then " - " ++ str_of_opt description else "".

Definition directive_text (dir : option directive)
    (directive_description : option string) : string :=
  match dir with
  | None => ""
  | Some d =>
      " # " ++ directive_name d ++
      match _escape_string directive_description with
      | Some reason => " " ++ reason
      | None => ""
      end
  end.

Definition test_line (description : option string) (index : nat)
    (success : bool) (dir : option directive)
    (directive_description : option string) : string :=
  status_text success ++ " " ++ str_of_nat index
  ++ description_text description
  ++ directive_text dir directive_description.

(** The message of an exception: its [args] joined by a space, when all
    of them are [str]. *)
Definition message (e : exn) : option string :=
  option_map (join " ") (strs (exn_args e)).

(** The diagnostic block of an exception with the message [msg] and the
    printed trace [printed], as the lines handed to the writer under the
    result line. *)
Definition diagnostic_block (msg printed : string) : list string :=
  ["  ---"]
  +++ map (fun l => "  " ++ rstrip l)
          (splitlines ("exception: " ++ msg ++ nl))
  +++ ["  traceback: |-"]
  +++ map (fun l => "  " ++ rstrip ("  " ++ l)) (splitlines printed)
  +++ ["  ..."].

(** An outcome of a test point call: [None] is a normal return. *)
Definition outcome : Type := option exn.

(** The outcomes that end the run of a plan: a [BailOut], an object of a
    class outside [Exception], and an exception whose message the handler
    joins ([Skip], [ToDo], the other exceptions) with an item in [args]
    that is not a [str]. *)
Definition stops (o : outcome) : bool :=
  match o with
  | Some e =>
      match exn_cls e with
      | ClsBailOut | ClsBaseException => true
      | ClsFail => false
      | ClsSkip | ClsToDo | ClsException =>
          match message e with Some _ => false | None => true end
      end
  | None => false
  end.

(** The exception in flight after the outcome [Some e] ended the run:
    [e] itself, or the [TypeError] of the join. *)
Definition in_flight (e : exn) : exn :=
  match exn_cls e with
  | ClsBailOut | ClsBaseException => e
  | _ => join_TypeError
  end.

Definition outcome_ok (o : outcome) : bool :=
  match o with
  | None => true
  | Some e => match exn_cls e with ClsSkip => true | _ => false end
  end.

Definition outcome_directive (o : outcome) : option directive :=
  match o with
  | None => None
  | Some e =>
      match exn_cls e with
      | ClsSkip => Some SKIP
      | ClsToDo => Some TODO
      | _ => None
      end
  end.

Definition outcome_reason (o : outcome) : option string :=
  match o with
  | None => None
  | Some e => message e
  end.

Definition outcome_diagnostics (o : outcome) : list string :=
  match o with
  | None => []
  | Some e =>
      match exn_cls e, message e with
      | ClsException, Some msg => diagnostic_block msg (exn_printed e)
      | _, _ => []
      end
  end.

(** Does the outcome clear the plan's [success] flag? *)
Definition outcome_fails (o : outcome) : bool :=
  match o with
  | None => false
  | Some e =>
      match exn_cls e with
      | ClsFail | ClsException => true
      | _ => false
      end
  end.

(** The lines of one test point: its result line, then its diagnostics. *)
Definition point_lines (index : nat) (description : option string)
    (o : outcome) : list string :=
  test_line description index (outcome_ok o) (outcome_directive o)
            (outcome_reason o)
  :: outcome_diagnostics o.

(** What is written for a test point whose outcome ends the run: the
    result line of an exception whose diagnostic block could not be made,
    and nothing otherwise. *)
Definition stop_lines (index : nat) (description : option string)
    (o : outcome) : list string :=
  match o with
  | Some e =>
      match exn_cls e with
      | ClsException => [test_line description index false None None]
      | _ => []
      end
  | None => []
  end.

(** Calling the test points in list order from world [w], each in the
    world the one before left, up to the first outcome that stops the
    run: the outcomes, and the last world. *)
Fixpoint outcomes {World} (tests : list (test_fn World * option string))
    (w : World) : list outcome * World :=
  match tests with
  | [] => ([], w)
  | (f, _) :: rest =>
      let (o, w') := f w in
      if stops o then ([o], w')
      else let (os, w'') := outcomes rest w' in (o :: os, w'')
  end.

(** The lines of the test points numbered from [index]. *)
Fixpoint points_lines (index : nat) (descriptions : list (option string))
    (os : list outcome) : list string :=
  match descriptions, os with
  | d :: ds, o :: os' =>
      if stops o then stop_lines index d o
      else point_lines index d o +++ points_lines (S index) ds os'
  | _, _ => []
  end.

(** The value of the loop of the plan runner entered with the flag
    [success], from the outcomes met. *)
Fixpoint loop_result (success : bool) (os : list outcome) : result bool :=
  match os with
  | [] => Return success
  | o :: os' =>
      match o with
      | Some e =>
          if stops o then Raise (in_flight e)
          else loop_result (success && negb (outcome_fails o)) os'
      | None => loop_result success os'
      end
  end.

(** The roll-up line of a plan. *)
Definition rollup_line {World} (index : nat) (plan : Plan World)
    (success : bool) : string :=
  status_text success ++ " " ++ str_of_nat index
  ++ description_text (description plan).

Fixpoint rollup_lines {World} (index : nat) (plans : list (Plan World))
    (results : list bool) : list string :=
  match plans, results with
  | p :: ps, b :: bs => rollup_line index p b :: rollup_lines (S index) ps bs
  | _, _ => []
  end.

(** [plans_run plans st results st']: from [st] the plans run one after
    the other in list order, each after a comment line naming its file and
    with indentation 4, none of them raises, [results] are their values
    and [st'] is the state after the last. *)
Inductive plans_run {World} :
    list (Plan World) -> State World -> list bool -> State World -> Prop :=
  | plans_run_nil : forall st, plans_run [] st [] st
  | plans_run_cons : forall plan rest st b st' bs st'',
      _execute_test_plan plan (_build_stream_writer 4)
        (written 0 ["# Tests for " ++ file_name plan] st) = (Return b, st') ->
      plans_run rest st' bs st'' ->
      plans_run (plan :: rest) st (b :: bs) st''.

(** ** Sample plans *)

Module Sample.

(** The world of the samples counts the calls made. *)
Definition passes : test_fn nat := fun w => (None, S w).
Definition raises (c : exn_class) (message : string) : test_fn nat :=
  fun w => (Some (mkExn c [Str message] ("Error: " ++ message ++ nl)), S w).

Definition start : State nat := mkState 0 [].

Definition todo_plan : Plan nat :=
  add_test_point (Plan_init "test_todo.py" None false)
                 (raises ClsToDo "not implemented") None.

Definition math_plan : Plan nat :=
  add_test_point
    (add_test_point (Plan_init "test_math.py" (Some "math") false)
                    passes None)
    (raises ClsFail "bad sum") (Some "sum").

Definition bail_plan : Plan nat :=
  add_test_point
    (add_test_point (Plan_init "test_bail.py" None false)
                    (raises ClsBailOut "overheat") None)
    passes None.

Definition interrupt_plan : Plan nat :=
  add_test_point (Plan_init "test_int.py" None false)
                 (raises ClsBaseException "") None.

Definition error_plan : Plan nat :=
  add_test_point (Plan_init "test_err.py" None false)
                 (raises ClsException "boom") (Some "explodes").

Definition skipped_plan : Plan nat :=
  add_test_point (Plan_init "test_skip.py" (Some " no #board ") true)
                 passes None.

Definition pass_plan : Plan nat :=
  add_test_point (Plan_init "test_pass.py" None false) passes None.

Definition mixed_plan : Plan nat :=
  add_test_point
    (add_test_point
       (add_test_point (Plan_init "test_mixed.py" None false) passes None)
       (raises ClsToDo "later # maybe") (Some "wip"))
    passes (Some "done").

Definition overheat_plan : Plan nat :=
  add_test_point (Plan_init "test_overheat.py" None false)
                 (raises ClsBailOut "overheat") None.

End Sample.

(** ** Test plan discovery *)

(** [s.startswith(p)], [s.endswith(p)] and the slice [s[:-k]]. *)
Definition startswith (p s : string) : bool := prefix p s.

Definition endswith (p s : string) : bool :=
  Nat.leb (String.length p) (String.length s)
  && (substring (String.length s - String.length p) (String.length p) s =? p).

Definition drop_last (k : nat) (s : string) : string :=
  substring 0 (String.length s - k) s.

(** The type [os.ilistdir] gives for a regular file, [0x8000]. *)
Definition S_IFREG : N := 0x8000%N.

Section Discovery.

Variable World : Type.

(** The module's global variables, and the world the test files act on. *)
Record Globals : Type := mkGlobals {
  _test_plans : list (Plan World);
  _current_file_name : option string;
  outside : World
}.

Definition set_test_plans (plans : list (Plan World)) (g : Globals) : Globals :=
  mkGlobals plans (_current_file_name g) (outside g).

Definition set_current_file_name (name : option string) (g : Globals)
    : Globals :=
  mkGlobals (_test_plans g) name (outside g).

(** What [print_exception] shows for the [AssertionError] of [build_plan]. *)
Variable assertion_trace : string.

Definition AssertionError : exn := mkExn ClsException [] assertion_trace.

Definition build_plan (description : option string) (skipped : bool)
    (g : Globals) : result (Plan World) * Globals :=
  if truthy (_current_file_name g)
  then
    let plan :=
      Plan_init (str_of_opt (_current_file_name g)) description skipped in
    (Return plan, set_test_plans (_test_plans g +++ [plan]) g)
  else (Raise AssertionError, g).

(** [exec(f"import {module_name}", ...)]: the top-level code of a test
    file, which returns or raises and may do anything to the globals. *)
Variable exec_import : string -> Globals -> option exn * Globals.

(** The files [find_test_plans] loads. *)
Definition is_test_file (name_tuple : string * N) : bool :=
  let file_name := fst name_tuple in
  let file_type := snd name_tuple in
  negb (negb (startswith "test_" file_name)
        || negb (endswith ".py" file_name)
        || negb (N.eqb file_type S_IFREG)).

(** The body of the loop of [find_test_plans]; the bare [except] lets
    nothing out. *)
Definition find_step (g : Globals) (name_tuple : string * N) : Globals :=
  let file_name := fst name_tuple in
  if negb (is_test_file name_tuple) then g
  else
    let module_name := drop_last 3 file_name in
    let g1 := set_current_file_name (Some file_name) g in
    snd (exec_import module_name g1).

(** [find_test_plans(path)], with [listing] what [os.ilistdir(path)]
    yields. *)
Definition find_test_plans (listing : list (string * N)) (g : Globals)
    : list (Plan World) * Globals :=
  let g := set_test_plans [] g in
  let g := fold_left find_step listing g in
  let g := set_current_file_name None g in
  (_test_plans g, g).

End Discovery.

Arguments mkGlobals {World}.
Arguments _test_plans {World}.
Arguments _current_file_name {World}.
Arguments outside {World}.
Arguments set_test_plans {World}.
Arguments set_current_file_name {World}.
Arguments build_plan {World}.
Arguments find_step {World}.
Arguments find_test_plans {World}.

(** ** Further vocabulary *)

(** Reading a reason as a TAP consumer does: is there a hash that no
    backslash escapes?  [escaped] tells that the character before was an
    escaping backslash. *)
Fixpoint unescaped_hash (s : string) (escaped : bool) : bool :=
  match s with
  | "" => false
  | String c s' =>
      if escaped then unescaped_hash s' false
      else if Ascii.eqb c "\"%char then unescaped_hash s' true
      else if Ascii.eqb c "#"%char then true
      else unescaped_hash s' false
  end.

(** A description as [Plan] keeps it: none, or a text that is not blank
    and has no white space around it. *)
Definition trimmed (d : option string) : Prop :=
  match d with
  | Some s => blank s = false /\ strip s = s
  | None => True
  end.

(** The plans the class can make: [Plan(...)], then [add_test_point]. *)
Inductive built {World} : Plan World -> Prop :=
  | built_init : forall file_name description skipped,
      built (Plan_init file_name description skipped)
  | built_add : forall plan test_point description,
      built plan -> built (add_test_point plan test_point description).

(** The stream of [st'] is that of [st] with more written after it. *)
Definition extends {World} (st st' : State World) : Prop :=
  exists lines, stream st' = stream st +++ lines.

Module Sample2.

Definition skip_plan : Plan nat :=
  add_test_point
    (add_test_point (Plan_init "test_dev.py" None false)
                    (Sample.raises ClsFail "bad") None)
    (Sample.raises ClsSkip "device absent") (Some "i2c").

Definition fail_plan : Plan nat :=
  add_test_point
    (add_test_point (Plan_init "test_sum.py" None false)
                    Sample.passes (Some "first"))
    (Sample.raises ClsFail "bad sum") (Some "sum").

(** A test file that builds one plan. *)
Definition one_plan_file (description : option string) (skipped : bool)
    (module_name : string) (g : Globals nat) : option exn * Globals nat :=
  match build_plan "" description skipped g with
  | (Return _, g') => (None, g')
  | (Raise e, g') => (Some e, g')
  end.

(** A test file that builds a plan and then raises. *)
Definition broken_file (module_name : string) (g : Globals nat)
    : option exn * Globals nat :=
  (Some (mkExn ClsBaseException [Str "stop"] ""),
   snd (build_plan "" (Some module_name) false g)).

Definition no_globals : Globals nat := mkGlobals [] None 0.

(** A test point that raises with one argument that is not a [str], as
    [OSError(2)] or [ToDo(42)] do. *)
Definition raises_code (c : exn_class) : test_fn nat :=
  fun w => (Some (mkExn c [NotStr] ("Error: 2" ++ nl)), S w).

Definition todo_code_plan : Plan nat :=
  add_test_point
    (add_test_point (Plan_init "test_code.py" None false)
                    (raises_code ClsToDo) None)
    Sample.passes None.

Definition skip_code_plan : Plan nat :=
  add_test_point
    (add_test_point (Plan_init "test_code.py" None false)
                    (raises_code ClsSkip) None)
    Sample.passes None.

Definition oserror_plan : Plan nat :=
  add_test_point
    (add_test_point (Plan_init "test_os.py" None false)
                    (raises_code ClsException) None)
    Sample.passes None.

Definition bail_code_plan : Plan nat :=
  add_test_point (Plan_init "test_bail.py" None false)
                 (raises_code ClsBailOut) None.

End Sample2.

(** * Properties *)

(** ** Strings *)

Lemma append_assoc (a b c : string) : (a ++ b) ++ c = a ++ (b ++ c).
Proof. induction a as [|x a IH]; simpl; [reflexivity | now rewrite IH]. Qed.

Lemma append_nil_r (a : string) : a ++ "" = a.
Proof. induction a as [|x a IH]; simpl; [reflexivity | now rewrite IH]. Qed.

Lemma eqb_empty (s : string) : (s =? "") = true <-> s = "".
Proof. apply String.eqb_eq. Qed.

Lemma prefix_empty (s : string) : prefix "" s = true.
Proof. destruct s; reflexivity. Qed.

(** Replacing a one-character pattern works character by character. *)
Lemma replace_from_char (a c : ascii) (new s : string) :
  replace_from (String a "") new (String c s) 0 =
  if Ascii.eqb a c
  then new ++ replace_from (String a "") new s 0
  else String c (replace_from (String a "") new s 0).
Proof.
  simpl. destruct (ascii_dec a c) as [->|Hne].
  - rewrite Ascii.eqb_refl. now rewrite prefix_empty.
  - apply Ascii.eqb_neq in Hne. now rewrite Hne.
Qed.

(** The two replacements of [_escape_string], one after the other, are the
    escaping rule. *)
Lemma replace_twice_escape_spec (s : string) :
  replace hash (backslash ++ hash)
    (replace backslash (backslash ++ backslash) s) = escape_spec s.
Proof.
  unfold replace, hash, backslash. cbn [append].
  induction s as [|c s IH]; [reflexivity|].
  rewrite replace_from_char.
  cbn [escape_spec]. unfold escape_char_spec.
  destruct (Ascii.eqb "\" c) eqn:Eb.
  - apply Ascii.eqb_eq in Eb. subst c. cbn [append].
    rewrite replace_from_char. cbn [Ascii.eqb Bool.eqb].
    rewrite replace_from_char. cbn [Ascii.eqb Bool.eqb].
    rewrite IH. reflexivity.
  - rewrite replace_from_char.
    rewrite (Ascii.eqb_sym c "\"), Eb.
    rewrite (Ascii.eqb_sym c "#").
    destruct (Ascii.eqb "#" c); rewrite IH; reflexivity.
Qed.

Lemma lstrip_empty_blank (s : string) : (lstrip s =? "") = blank s.
Proof.
  induction s as [|c s IH]; [reflexivity|].
  simpl. destruct (isspace c); [exact IH | reflexivity].
Qed.

Lemma rstrip_empty_blank (s : string) : (rstrip s =? "") = blank s.
Proof.
  induction s as [|c s IH]; [reflexivity|].
  simpl. rewrite IH. destruct (isspace c), (blank s); reflexivity.
Qed.

Lemma blank_lstrip (s : string) : blank (lstrip s) = blank s.
Proof.
  induction s as [|c s IH]; [reflexivity|].
  simpl. destruct (isspace c) eqn:E; [exact IH|]. simpl. now rewrite E.
Qed.

Lemma strip_empty_blank (s : string) : (strip s =? "") = blank s.
Proof. unfold strip. now rewrite rstrip_empty_blank, blank_lstrip. Qed.

Lemma blank_app (a b : string) : blank (a ++ b) = blank a && blank b.
Proof.
  induction a as [|c a IH]; [reflexivity|].
  simpl. rewrite IH. now rewrite andb_assoc.
Qed.

Lemma blank_escape_spec (s : string) : blank (escape_spec s) = blank s.
Proof.
  induction s as [|c s IH]; [reflexivity|].
  cbn [escape_spec]. rewrite blank_app, IH. cbn [blank]. f_equal.
  unfold escape_char_spec.
  destruct (Ascii.eqb c "\") eqn:E1.
  - apply Ascii.eqb_eq in E1. now subst c.
  - destruct (Ascii.eqb c "#") eqn:E2.
    + apply Ascii.eqb_eq in E2. now subst c.
    + simpl. now rewrite andb_true_r.
Qed.

(** [_escape_string] in one equation. *)
Lemma escape_string_eq (s : string) :
  _escape_string (Some s) =
  if blank s then None else Some (strip (escape_spec s)).
Proof.
  unfold _escape_string. rewrite replace_twice_escape_spec.
  rewrite strip_empty_blank.
  destruct s as [|c s]; [reflexivity|].
  change (String c s =? "") with false. cbn [negb andb].
  now destruct (blank (String c s)).
Qed.

Lemma trim_empty_to_none_eq (s : string) :
  _trim_empty_to_none (Some s) = if blank s then None else Some (strip s).
Proof.
  unfold _trim_empty_to_none. rewrite strip_empty_blank.
  destruct s as [|c s]; [reflexivity|].
  change (String c s =? "") with false. cbn [negb andb].
  now destruct (blank (String c s)).
Qed.

(** What [_escape_string] returns is never an empty string. *)
Lemma truthy_escape_string (x : option string) :
  truthy (_escape_string x) =
  match _escape_string x with Some _ => true | None => false end.
Proof.
  destruct x as [s|]; [|reflexivity].
  rewrite escape_string_eq. destruct (blank s) eqn:E; [reflexivity|].
  cbn [truthy]. now rewrite strip_empty_blank, blank_escape_spec, E.
Qed.

(** *** Stripped strings stay stripped *)

Lemma rstrip_idem (s : string) : rstrip (rstrip s) = rstrip s.
Proof.
  induction s as [|c s IH]; [reflexivity|].
  cbn [rstrip]. destruct (isspace c && (rstrip s =? "")) eqn:E; [reflexivity|].
  cbn [rstrip]. now rewrite IH, E.
Qed.

Lemma head_clean_lstrip (s : string) : head_clean (lstrip s) = true.
Proof.
  induction s as [|c s IH]; [reflexivity|].
  cbn [lstrip]. destruct (isspace c) eqn:E; [exact IH|].
  cbn [head_clean]. now rewrite E.
Qed.

Lemma lstrip_head_clean (s : string) : head_clean s = true -> lstrip s = s.
Proof.
  destruct s as [|c s]; [reflexivity|]. cbn [head_clean lstrip].
  intro H. apply negb_true_iff in H. now rewrite H.
Qed.

Lemma head_clean_rstrip (s : string) :
  head_clean s = true -> head_clean (rstrip s) = true.
Proof.
  destruct s as [|c s]; [reflexivity|]. cbn [head_clean rstrip].
  intro H. apply negb_true_iff in H. rewrite H. cbn [andb head_clean].
  now rewrite H.
Qed.

Lemma head_clean_strip (s : string) : head_clean (strip s) = true.
Proof. apply head_clean_rstrip, head_clean_lstrip. Qed.

Lemma strip_idem (s : string) : strip (strip s) = strip s.
Proof.
  unfold strip at 1.
  rewrite (lstrip_head_clean _ (head_clean_strip s)).
  unfold strip. apply rstrip_idem.
Qed.

Lemma blank_rstrip (s : string) : blank (rstrip s) = blank s.
Proof.
  induction s as [|c s IH]; [reflexivity|].
  cbn [rstrip blank]. rewrite rstrip_empty_blank.
  destruct (isspace c) eqn:E, (blank s) eqn:B; cbn [andb blank];
    rewrite ?E, ?IH, ?B; reflexivity.
Qed.

Lemma blank_strip (s : string) : blank (strip s) = blank s.
Proof. unfold strip. now rewrite blank_rstrip, blank_lstrip. Qed.

Lemma blank_empty (s : string) : s = "" -> blank s = true.
Proof. now intros ->. Qed.

(** Text put in front of a right-stripped, non-empty string. *)
Lemma rstrip_app (a r : string) :
  rstrip r = r -> r <> "" -> rstrip (a ++ r) = a ++ r.
Proof.
  intros Hr Hne. induction a as [|c a IH]; [exact Hr|].
  cbn [append rstrip]. rewrite IH.
  destruct (a ++ r) eqn:E.
  - destruct a; [now subst | discriminate].
  - now rewrite andb_false_r.
Qed.

Lemma escape_spec_empty (s : string) : escape_spec s = "" -> s = "".
Proof.
  destruct s as [|c s]; [reflexivity|]. cbn [escape_spec].
  unfold escape_char_spec.
  destruct (Ascii.eqb c "\"); [discriminate|].
  destruct (Ascii.eqb c "#"); discriminate.
Qed.

Lemma head_clean_escape_spec (s : string) :
  head_clean s = true -> head_clean (escape_spec s) = true.
Proof.
  destruct s as [|c s]; [reflexivity|]. cbn [head_clean escape_spec].
  unfold escape_char_spec. intro H.
  destruct (Ascii.eqb c "\"); [reflexivity|].
  destruct (Ascii.eqb c "#"); [reflexivity | exact H].
Qed.

Lemma rstrip_escape_spec (s : string) :
  rstrip s = s -> rstrip (escape_spec s) = escape_spec s.
Proof.
  induction s as [|c s IH]; [reflexivity|].
  cbn [rstrip]. destruct (isspace c && (rstrip s =? "")) eqn:E; [discriminate|].
  intro H. injection H as Hs. cbn [escape_spec].
  destruct s as [|c' s'].
  - cbn [escape_spec]. rewrite append_nil_r.
    cbn [rstrip] in E. rewrite andb_true_r in E.
    unfold escape_char_spec.
    destruct (Ascii.eqb c "\"); [reflexivity|].
    destruct (Ascii.eqb c "#"); [reflexivity|].
    cbn [rstrip]. now rewrite E.
  - apply rstrip_app; [now apply IH|].
    intro H0. apply escape_spec_empty in H0. discriminate.
Qed.

(** Escaping a stripped string leaves nothing to strip. *)
Lemma strip_escape_spec_strip (s : string) :
  strip (escape_spec (strip s)) = escape_spec (strip s).
Proof.
  unfold strip at 1.
  rewrite lstrip_head_clean
    by apply head_clean_escape_spec, head_clean_strip.
  apply rstrip_escape_spec. unfold strip. apply rstrip_idem.
Qed.

(** A description as [Plan] stores it, when there is one, escapes to a
    reason that is the escaping rule applied to it. *)
Lemma escape_trimmed (raw : option string) (d : string) :
  _trim_empty_to_none raw = Some d ->
  d <> "" /\ _escape_string (Some d) = Some (escape_spec d).
Proof.
  destruct raw as [s|]; [|discriminate].
  rewrite trim_empty_to_none_eq.
  destruct (blank s) eqn:B; [discriminate|].
  intro H. injection H as <-.
  assert (Hb : blank (strip s) = false) by now rewrite blank_strip.
  split.
  - intro H0. apply blank_empty in H0. congruence.
  - rewrite escape_string_eq, Hb. now rewrite strip_escape_spec_strip.
Qed.

(** ** Lines *)

Lemma splitlines_cons_not_nil (c : ascii) (s : string) :
  splitlines (String c s) <> [].
Proof.
  cbn [splitlines].
  destruct (Ascii.eqb c LF); [discriminate|].
  destruct (Ascii.eqb c CR).
  - destruct s as [|c' s']; [discriminate|].
    destruct (Ascii.eqb c' LF); discriminate.
  - destruct (splitlines s); discriminate.
Qed.

(** A line with no line end in it, then a line feed: one line. *)
Lemma splitlines_line (l rest : string) :
  no_break l = true ->
  splitlines (l ++ nl ++ rest) = l :: splitlines rest.
Proof.
  induction l as [|c l IH]; intro H; [reflexivity|].
  cbn [no_break] in H. apply andb_true_iff in H as [Hc Hl].
  unfold is_break in Hc. apply negb_true_iff, orb_false_iff in Hc as [H1 H2].
  cbn [append splitlines]. rewrite H1, H2, (IH Hl). reflexivity.
Qed.

(** The lines [splitlines] returns have no line end in them. *)
Lemma splitlines_no_break_aux (s : string) :
  Forall (fun l => no_break l = true) (splitlines s) /\
  forall c, Forall (fun l => no_break l = true) (splitlines (String c s)).
Proof.
  induction s as [|c' s [IH1 IH2]].
  - split; [constructor|]. intro c. cbn [splitlines].
    destruct (Ascii.eqb c LF) eqn:E1; [repeat constructor|].
    destruct (Ascii.eqb c CR) eqn:E2; [repeat constructor|].
    repeat constructor. cbn [no_break]. unfold is_break. now rewrite E1, E2.
  - split; [apply IH2|]. intro c.
    remember (String c' s) as t eqn:Et.
    cbn [splitlines].
    destruct (Ascii.eqb c LF) eqn:E1.
    { constructor; [reflexivity|]. subst t. apply IH2. }
    destruct (Ascii.eqb c CR) eqn:E2.
    { subst t. destruct (Ascii.eqb c' LF).
      - constructor; [reflexivity | exact IH1].
      - constructor; [reflexivity | apply IH2]. }
    specialize (IH2 c'). rewrite <- Et in IH2.
    destruct (splitlines t) as [|l ls].
    + repeat constructor. cbn [no_break]. unfold is_break. now rewrite E1, E2.
    + inversion IH2 as [|? ? Hl Hls]; subst. constructor; [|exact Hls].
      cbn [no_break]. unfold is_break. now rewrite E1, E2, Hl.
Qed.

Lemma splitlines_no_break (s : string) :
  Forall (fun l => no_break l = true) (splitlines s).
Proof. apply splitlines_no_break_aux. Qed.

(** A line feed closes a line whatever stands before it. *)
Lemma splitlines_feed_aux (x : string) :
  (forall rest, splitlines (x ++ nl ++ rest) =
                splitlines (x ++ nl) +++ splitlines rest) /\
  (forall c rest, splitlines (String c x ++ nl ++ rest) =
                  splitlines (String c x ++ nl) +++ splitlines rest).
Proof.
  induction x as [|c' x [IH1 IH2]].
  - split; [reflexivity|]. intros c rest.
    cbn [append splitlines]. unfold nl.
    destruct (Ascii.eqb c LF); [reflexivity|].
    destruct (Ascii.eqb c CR); reflexivity.
  - split; [apply IH2|]. intros c rest.
    specialize (IH2 c').
    change (String c (String c' x) ++ nl ++ rest)
      with (String c (String c' x ++ nl ++ rest)).
    change (String c (String c' x) ++ nl)
      with (String c (String c' x ++ nl)).
    remember (String c' x ++ nl ++ rest) as t eqn:Et.
    remember (String c' x ++ nl) as u eqn:Eu.
    cbn [splitlines].
    destruct (Ascii.eqb c LF).
    { subst t u. now rewrite IH2. }
    destruct (Ascii.eqb c CR).
    { subst t u. cbn [append]. destruct (Ascii.eqb c' LF).
      - now rewrite IH1.
      - change (String c' (x ++ nl ++ rest)) with (String c' x ++ nl ++ rest).
        change (String c' (x ++ nl)) with (String c' x ++ nl).
        now rewrite IH2. }
    rewrite Et, IH2. try rewrite <- Eu.
    assert (Hu : splitlines u <> []).
    { subst u. apply splitlines_cons_not_nil. }
    destruct (splitlines u) as [|l ls]; [contradiction|]. reflexivity.
Qed.

Lemma splitlines_feed (x rest : string) :
  splitlines (x ++ nl ++ rest) = splitlines (x ++ nl) +++ splitlines rest.
Proof. apply splitlines_feed_aux. Qed.

Lemma fold_left_trace (ls : list string) (acc : string) :
  fold_left (fun acc line => acc ++ "  " ++ line ++ nl) ls acc =
  acc ++ fold_right (fun line r => "  " ++ line ++ nl ++ r) "" ls.
Proof.
  revert acc. induction ls as [|l ls IH]; intro acc; cbn [fold_left fold_right].
  - now rewrite append_nil_r.
  - rewrite IH, !append_assoc. reflexivity.
Qed.

Lemma splitlines_trace (ls : list string) (rest : string) :
  Forall (fun l => no_break l = true) ls ->
  splitlines (fold_right (fun line r => "  " ++ line ++ nl ++ r) "" ls ++ rest) =
  map (fun l => "  " ++ l) ls +++ splitlines rest.
Proof.
  induction 1 as [|l ls Hl _ IH]; cbn [fold_right map]; [reflexivity|].
  set (t := fold_right (fun line r => "  " ++ line ++ nl ++ r) "" ls) in *.
  replace (("  " ++ l ++ nl ++ t) ++ rest)
    with (("  " ++ l) ++ nl ++ (t ++ rest))
    by (rewrite !append_assoc; reflexivity).
  rewrite splitlines_line by exact Hl.
  now rewrite IH.
Qed.

Lemma join_args_message (e : exn) :
  join_args " " (exn_args e) =
  match message e with
  | Some msg => Return msg
  | None => Raise join_TypeError
  end.
Proof. unfold join_args, message. now destruct (strs (exn_args e)). Qed.

Lemma format_exception_no_message (e : exn) :
  message e = None -> _format_exception e = Raise join_TypeError.
Proof.
  intro H. unfold _format_exception. now rewrite join_args_message, H.
Qed.

(** The lines of [_format_exception], each right-stripped and indented by
    two, are the diagnostic block. *)
Lemma format_exception_lines (e : exn) (msg : string) :
  message e = Some msg ->
  exists text,
    _format_exception e = Return text /\
    map (fun l => "  " ++ rstrip l) (splitlines text) =
    diagnostic_block msg (exn_printed e).
Proof.
  intro Hm. unfold _format_exception, diagnostic_block.
  rewrite join_args_message, Hm. eexists. split; [reflexivity|].
  rewrite fold_left_trace.
  set (t := fold_right (fun line r => "  " ++ line ++ nl ++ r) ""
                       (splitlines (exn_printed e))).
  replace ((((("---" ++ nl) ++ "exception: " ++ msg ++ nl)
            ++ "traceback: |-" ++ nl) ++ t) ++ "..." ++ nl)
    with ("---" ++ nl ++ ("exception: " ++ msg) ++ nl
          ++ "traceback: |-" ++ nl ++ t ++ "..." ++ nl)
    by (rewrite !append_assoc; reflexivity).
  rewrite (splitlines_line "---") by reflexivity.
  rewrite splitlines_feed.
  rewrite (splitlines_line "traceback: |-") by reflexivity.
  unfold t. rewrite splitlines_trace by apply splitlines_no_break.
  cbn [map]. rewrite map_app. cbn [map]. rewrite map_app, map_map.
  rewrite append_assoc. reflexivity.
Qed.

(** ** The writer *)

Section Runner.

Context {World : Type}.
Implicit Types (st : State World) (n : nat).

Lemma state_eta st : mkState (world st) (stream st) = st.
Proof. now destruct st. Qed.

Lemma written_nil n st : written n [] st = st.
Proof. unfold written. simpl. rewrite app_nil_r. apply state_eta. Qed.

Lemma written_app n (a b : list string) st :
  written n (a +++ b) st = written n b (written n a st).
Proof. unfold written. simpl. now rewrite map_app, app_assoc. Qed.

Lemma written_cons n (a : string) (b : list string) st :
  written n (a :: b) st = written n b (written n [a] st).
Proof. apply (written_app n [a] b). Qed.

Lemma world_written n lines st : world (written n lines st) = world st.
Proof. reflexivity. Qed.

Lemma writer_written n (s : string) st :
  _build_stream_writer n s st = (Return tt, written n [s] st).
Proof. reflexivity. Qed.

(** [_write_test_result] hands exactly one line to the writer. *)
Lemma write_test_result_line n d i success dir dd st :
  _write_test_result (_build_stream_writer n) d i success dir dd st =
  (Return tt, written n [test_line d i success dir dd] st).
Proof.
  unfold _write_test_result. rewrite writer_written. do 3 f_equal.
  unfold test_line, description_text, directive_text, status_text.
  rewrite truthy_escape_string.
  destruct (truthy d), dir as [k|];
    try destruct (_escape_string dd); cbn [str_of_opt];
    rewrite ?append_assoc, ?append_nil_r; reflexivity.
Qed.

Lemma for_each_written n (g : string -> string) (ls : list string) st :
  for_each (fun line => _build_stream_writer n (g line)) ls st =
  (Return tt, written n (map g ls) st).
Proof.
  revert st. induction ls as [|l ls IH]; intro st; simpl.
  - now rewrite written_nil.
  - unfold bind. rewrite writer_written, IH.
    now rewrite (written_cons n (g l) (map g ls)).
Qed.

Lemma for_enumerate_app {A V} (body : nat -> A -> V -> M World V)
    (pre post : list A) : forall i (s : V) st,
  for_enumerate body (pre +++ post) i s st =
  match for_enumerate body pre i s st with
  | (Return s', st') => for_enumerate body post (i + List.length pre) s' st'
  | (Raise e, st') => (Raise e, st')
  end.
Proof.
  induction pre as [|x pre IH]; intros i s st; simpl.
  - now rewrite Nat.add_0_r.
  - unfold bind. destruct (body i x s st) as [[s'|e] st']; [|reflexivity].
    rewrite IH. now rewrite Nat.add_succ_r.
Qed.

(** *** One test point *)

Lemma test_point_step_eq n i (f : test_fn World) d (s : bool) st :
  test_point_step (_build_stream_writer n) i (f, d) s st =
  let (o, w) := f (world st) in
  let st1 := mkState w (stream st) in
  match o with
  | Some e =>
      if stops o
      then (Raise (in_flight e), written n (stop_lines i d o) st1)
      else (Return (s && negb (outcome_fails o)),
            written n (point_lines i d o) st1)
  | None => (Return s, written n (point_lines i d o) st1)
  end.
Proof.
  unfold test_point_step, try_except, bind, call.
  destruct (f (world st)) as [[e|] w]; cbv beta iota.
  - unfold stops, in_flight, stop_lines, outcome_fails, point_lines,
      outcome_ok, outcome_directive, outcome_reason, outcome_diagnostics.
    destruct (exn_cls e) eqn:E; cbv beta iota; unfold eval, raise;
      rewrite ?write_test_result_line; cbv beta iota.
    + (* Skip *)
      rewrite join_args_message. destruct (message e) as [msg|];
        cbv beta iota; rewrite ?write_test_result_line, ?written_nil;
        unfold ret; rewrite ?andb_true_r; reflexivity.
    + (* ToDo *)
      rewrite join_args_message. destruct (message e) as [msg|];
        cbv beta iota; rewrite ?write_test_result_line, ?written_nil;
        unfold ret; rewrite ?andb_true_r; reflexivity.
    + (* Fail *)
      unfold ret. now rewrite andb_false_r.
    + (* BailOut *)
      now rewrite written_nil.
    + (* another Exception *)
      destruct (message e) as [msg|] eqn:Hm.
      * destruct (format_exception_lines e msg Hm) as [text [Ht Hl]].
        rewrite Ht. cbv beta iota. rewrite for_each_written, Hl.
        unfold ret. rewrite andb_false_r.
        now rewrite <- written_cons.
      * now rewrite (format_exception_no_message e Hm).
    + (* outside Exception *)
      now rewrite written_nil.
  - rewrite write_test_result_line. reflexivity.
Qed.

(** *** The loop over the test points *)

Lemma points_loop_eq n (tps : list (test_fn World * option string)) :
  forall i (s : bool) st,
  for_enumerate (test_point_step (_build_stream_writer n)) tps i s st =
  let (os, w) := outcomes tps (world st) in
  (loop_result s os,
   written n (points_lines i (map snd tps) os) (mkState w (stream st))).
Proof.
  induction tps as [|[f d] rest IH]; intros i s st.
  - cbn [for_enumerate outcomes map points_lines loop_result].
    unfold ret. now rewrite written_nil, state_eta.
  - cbn [for_enumerate outcomes map snd]. unfold bind.
    rewrite test_point_step_eq.
    destruct (f (world st)) as [o w]. cbv zeta.
    assert (Hw : forall (a b : list string) (w' : World),
      written n b (mkState w' (stream (written n a (mkState w (stream st)))))
      = written n (a +++ b) (mkState w' (stream st))).
    { intros a b w'. unfold written. cbn [world stream].
      now rewrite map_app, app_assoc. }
    destruct o as [e|].
    + destruct (stops (Some e)) eqn:Es.
      * cbn [points_lines loop_result]. now rewrite Es.
      * rewrite IH. rewrite world_written. cbn [world].
        destruct (outcomes rest w) as [os w'].
        cbn [points_lines loop_result]. rewrite Es.
        now rewrite Hw.
    + rewrite IH. rewrite world_written. cbn [world].
      destruct (outcomes rest w) as [os w'].
      cbn [points_lines loop_result stops].
      now rewrite Hw.
Qed.

Lemma loop_result_no_stop (os : list outcome) : forall s : bool,
  existsb stops os = false ->
  loop_result s os = Return (s && negb (existsb outcome_fails os)).
Proof.
  induction os as [|o os IH]; intros s H; cbn [loop_result existsb].
  - now rewrite andb_true_r.
  - cbn [existsb] in H. apply orb_false_iff in H as [Ho Hos].
    destruct o as [e|].
    + rewrite Ho, (IH _ Hos).
      now rewrite negb_orb, andb_assoc.
    + rewrite (IH _ Hos). reflexivity.
Qed.

Lemma loop_result_false (os : list outcome) (b : bool) :
  loop_result false os = Return b -> b = false.
Proof.
  induction os as [|o os IH]; cbn [loop_result]; intro H.
  - now inversion H.
  - destruct o as [e|]; [|now apply IH].
    destruct (stops (Some e)); [discriminate|]. now apply IH.
Qed.

Lemma outcomes_length (tps : list (test_fn World * option string)) :
  forall (w w' : World) os,
  outcomes tps w = (os, w') -> existsb stops os = false ->
  List.length os = List.length tps.
Proof.
  induction tps as [|[f d] rest IH]; intros w w' os H Hs; cbn [outcomes] in H.
  - now inversion H.
  - destruct (f w) as [o w1]. destruct (stops o) eqn:Eo.
    + inversion H; subst. cbn [existsb] in Hs. now rewrite Eo in Hs.
    + destruct (outcomes rest w1) as [os1 w2] eqn:E1.
      inversion H; subst. cbn [existsb] in Hs. rewrite Eo in Hs.
      cbn [List.length]. f_equal. now apply (IH w1 w').
Qed.

(** With no outcome that stops the run, the lines are those of the test
    points one after the other, numbered without a gap. *)
Lemma points_lines_flat (ds : list (option string)) :
  forall i (os : list outcome),
  existsb stops os = false -> List.length os = List.length ds ->
  points_lines i ds os =
  List.concat (map (fun '(i, (d, o)) => point_lines i d o)
              (combine (seq i (List.length ds)) (combine ds os))).
Proof.
  induction ds as [|d ds IH]; intros i os Hs Hl.
  - reflexivity.
  - destruct os as [|o os]; [discriminate|].
    cbn [existsb] in Hs. apply orb_false_iff in Hs as [Ho Hos].
    cbn [points_lines List.length seq combine map List.concat fst snd].
    rewrite Ho. f_equal. apply IH; [exact Hos | now inversion Hl].
Qed.

(** The lines of a diagnostic block start with two spaces: none of them is
    a result line. *)
Lemma diagnostics_indented (o : outcome) :
  Forall (fun l => prefix "  " l = true) (outcome_diagnostics o).
Proof.
  destruct o as [e|]; [|constructor].
  cbn [outcome_diagnostics].
  destruct (exn_cls e), (message e) as [msg|]; try constructor.
  - reflexivity.
  - unfold diagnostic_block. cbn ["+++"].
    apply Forall_app. split.
    + apply Forall_map, Forall_forall. intros l _. cbn. apply prefix_empty.
    + constructor; [reflexivity|]. apply Forall_app. split.
      * apply Forall_map, Forall_forall. intros l _. cbn. apply prefix_empty.
      * repeat constructor.
Qed.

(** A plan that is not skipped and has test points: the plan line, then
    the loop. *)
Lemma execute_test_plan_runs n (plan : Plan World) st :
  skipped plan = false -> test_points plan <> [] ->
  _execute_test_plan plan (_build_stream_writer n) st =
  for_enumerate (test_point_step (_build_stream_writer n))
    (test_points plan) 1 true
    (written n ["1.." ++ str_of_nat (List.length (test_points plan))] st).
Proof.
  intros Hs Hp. unfold _execute_test_plan. rewrite Hs.
  destruct (test_points plan) as [|t ts] eqn:E; [contradiction|].
  cbn [orb]. unfold bind. rewrite writer_written. reflexivity.
Qed.

End Runner.

(** ** The session *)

Section Session.

Context {World : Type}.
Implicit Types (st : State World) (plan : Plan World).

(** The run of a plan seen from one of its test points: the loop has
    come to it with the flag [s] in the state [st2]. *)
Lemma plan_runs_split n plan st pre f d post (s : bool) st2 :
  skipped plan = false ->
  test_points plan = pre +++ (f, d) :: post ->
  for_enumerate (test_point_step (_build_stream_writer n)) pre 1 true
    (written n ["1.." ++ str_of_nat (List.length (test_points plan))] st)
  = (Return s, st2) ->
  _execute_test_plan plan (_build_stream_writer n) st =
  match test_point_step (_build_stream_writer n) (S (List.length pre))
          (f, d) s st2 with
  | (Return s', st3) =>
      for_enumerate (test_point_step (_build_stream_writer n)) post
        (S (S (List.length pre))) s' st3
  | (Raise e, st3) => (Raise e, st3)
  end.
Proof.
  intros Hs Hp Hpre.
  rewrite execute_test_plan_runs; [|exact Hs|].
  - rewrite Hp in *. rewrite for_enumerate_app, Hpre.
    cbn [for_enumerate Nat.add]. unfold bind. reflexivity.
  - rewrite Hp. now destruct pre.
Qed.

(** Once the flag is cleared it stays so. *)
Lemma points_loop_false n (tps : list (test_fn World * option string))
    i st (b : bool) st' :
  for_enumerate (test_point_step (_build_stream_writer n)) tps i false st
  = (Return b, st') -> b = false.
Proof.
  rewrite points_loop_eq. destruct (outcomes tps (world st)) as [os w].
  intro H. injection H as H _. now apply loop_result_false in H.
Qed.

Lemma plans_loop_step plan (rest : list (Plan World)) (acc : list bool) st :
  plans_loop (plan :: rest) acc st =
  match _execute_test_plan plan (_build_stream_writer 4)
          (written 0 ["# Tests for " ++ file_name plan] st) with
  | (Return b, st') => plans_loop rest (acc +++ [b]) st'
  | (Raise e, st') =>
      if is_BailOut e
      then match _format_bailout_exception e with
           | Return text => (Return None, written 0 [text] st')
           | Raise e' => (Raise e', st')
           end
      else (Raise e, st')
  end.
Proof.
  cbn [plans_loop]. unfold bind at 1. unfold try_except.
  unfold bind at 1. rewrite writer_written. unfold bind at 1.
  destruct (_execute_test_plan plan (_build_stream_writer 4)
              (written 0 ["# Tests for " ++ file_name plan] st))
    as [[b|e] st']; [reflexivity|].
  unfold bailout_handler. destruct (is_BailOut e); [|reflexivity].
  unfold bind, eval.
  destruct (_format_bailout_exception e) as [text|e']; [|reflexivity].
  now rewrite writer_written.
Qed.

Lemma plans_run_loop (plans rest : list (Plan World)) st bs st' :
  plans_run plans st bs st' ->
  forall acc, plans_loop (plans +++ rest) acc st =
              plans_loop rest (acc +++ bs) st'.
Proof.
  induction 1 as [st|plan ps st b st1 bs st2 Hrun _ IH]; intro acc.
  - now rewrite app_nil_r.
  - cbn ["+++"]. rewrite plans_loop_step, Hrun, IH.
    now rewrite <- app_assoc.
Qed.


Lemma rollup_loop (plans : list (Plan World)) :
  forall (results : list bool) i st,
  for_enumerate (rollup_step (_build_stream_writer 0))
    (combine plans results) i tt st =
  (Return tt, written 0 (rollup_lines i plans results) st).
Proof.
  induction plans as [|p ps IH]; intros results i st.
  - cbn [combine for_enumerate rollup_lines]. unfold ret.
    now rewrite written_nil.
  - destruct results as [|b bs].
    + cbn [combine for_enumerate rollup_lines]. unfold ret.
      now rewrite written_nil.
    + cbn [combine for_enumerate rollup_lines]. unfold bind.
      assert (E : rollup_step (_build_stream_writer 0) i (p, b) tt st =
                  (Return tt, written 0 [rollup_line i p b] st)).
      { unfold rollup_step, rollup_line, description_text, status_text.
        rewrite writer_written. do 3 f_equal.
        destruct (truthy (description p)); rewrite ?append_assoc, ?append_nil_r;
          reflexivity. }
      rewrite E, IH.
      now rewrite (written_cons 0 (rollup_line i p b)
                     (rollup_lines (S i) ps bs)).
Qed.

(** Multi mode: the header, then the loop, then the roll-up. *)
Lemma execute_multi (plans : plans_arg World) (root_plan : bool) st :
  single_plan plans = None ->
  execute_test_plans plans root_plan st =
  match plans_loop (plans_of plans) []
          (written 0
             ("TAP version 14"
              :: if root_plan
                 then ["1.." ++ str_of_nat (List.length (plans_of plans))]
                 else []) st) with
  | (Return (Some results), st') =>
      if root_plan
      then (Return tt, written 0 (rollup_lines 1 (plans_of plans) results) st')
      else (Return tt, st')
  | (Return None, st') => (Return tt, st')
  | (Raise e, st') => (Raise e, st')
  end.
Proof.
  intro H. unfold execute_test_plans. rewrite H.
  unfold bind at 1. rewrite writer_written.
  unfold bind at 1.
  assert (E : (if root_plan
               then _build_stream_writer 0
                      ("1.." ++ str_of_nat (List.length (plans_of plans)))
               else ret tt) (written 0 ["TAP version 14"] st) =
              (Return tt,
               written 0
                 ("TAP version 14"
                  :: if root_plan
                     then ["1.." ++ str_of_nat (List.length (plans_of plans))]
                     else []) st)).
  { destruct root_plan.
    - rewrite writer_written. now rewrite <- written_cons.
    - reflexivity. }
  rewrite E. unfold bind.
  destruct (plans_loop _ _ _) as [[[results|]|e] st']; try reflexivity.
  destruct root_plan; [apply rollup_loop | reflexivity].
Qed.

Lemma execute_single (plans : plans_arg World) (root_plan : bool) plan st :
  single_plan plans = Some plan ->
  execute_test_plans plans root_plan st =
  match _execute_test_plan plan (_build_stream_writer 0)
          (written 0 ["TAP version 14"] st) with
  | (Return _, st') => (Return tt, st')
  | (Raise e, st') =>
      if is_BailOut e
      then match _format_bailout_exception e with
           | Return text => (Return tt, written 0 [text] st')
           | Raise e' => (Raise e', st')
           end
      else (Raise e, st')
  end.
Proof.
  intro H. unfold execute_test_plans. rewrite H.
  unfold bind at 1. rewrite writer_written.
  unfold try_except, bind at 1.
  destruct (_execute_test_plan plan _ _) as [[b|e] st']; [reflexivity|].
  unfold bailout_handler. destruct (is_BailOut e); [|reflexivity].
  unfold bind, eval.
  destruct (_format_bailout_exception e) as [text|e']; [|reflexivity].
  now rewrite writer_written.
Qed.

End Session.

(** A plan that is skipped or has no test point: one line. *)
Lemma skipped_or_empty_plan_aux {World} n (plan : Plan World)
    (st : State World) :
  skipped plan = true \/ test_points plan = [] ->
  _execute_test_plan plan (_build_stream_writer n) st =
    (Return true,
     written n
       ["1..0" ++
        if truthy (description plan)
        then " # SKIP " ++ str_of_opt (_escape_string (description plan))
        else ""] st).
Proof.
  intro H. unfold _execute_test_plan.
  assert (C : (match test_points plan with [] => true | _ => false end
               || skipped plan) = true).
  { destruct H as [H|H]; rewrite H; [apply orb_true_r | reflexivity]. }
  rewrite C. unfold bind. rewrite writer_written. unfold ret.
  destruct (truthy (description plan)); [reflexivity|].
  now rewrite append_nil_r.
Qed.

(** * The claims *)

(** ** The escaping rule *)

(** C7: [_escape_string] replaces every backslash by two and every hash by
    a backslash and a hash (the result is stripped); [None] and a string
    that is empty or white space only give [None].  In a test point line
    the description goes in as it is, the reason of the directive goes in
    escaped, and it is left out altogether when that escapes to [None]. *)
Theorem escape_string_rule :
  _escape_string None = None /\
  (forall s, _escape_string (Some s) =
             if blank s then None else Some (strip (escape_spec s))) /\
  (forall d, description_text (Some d) =
             if d =? "" then "" else " - " ++ d) /\
  (forall World n d i ok (st : State World),
     _write_test_result (_build_stream_writer n) d i ok None None st =
     (Return tt,
      written n [status_text ok ++ " " ++ str_of_nat i
                 ++ description_text d] st)) /\
  (forall World n d i ok k reason (st : State World),
     _write_test_result (_build_stream_writer n) d i ok (Some k) reason st =
     (Return tt,
      written n [status_text ok ++ " " ++ str_of_nat i
                 ++ description_text d
                 ++ " # " ++ directive_name k
                 ++ match reason with
                    | Some r =>
                        if blank r then "" else " " ++ strip (escape_spec r)
                    | None => ""
                    end] st)).
Proof.
  split; [reflexivity|]. split; [exact escape_string_eq|].
  split; [intro d; unfold description_text; cbn; now destruct (d =? "")|].
  split.
  - intros. rewrite write_test_result_line. unfold test_line, directive_text.
    now rewrite append_nil_r.
  - intros. rewrite write_test_result_line. unfold test_line, directive_text.
    destruct reason as [r|]; [|reflexivity].
    rewrite escape_string_eq. now destruct (blank r).
Qed.

(** ** The bail-out line *)

(** C9: for a [BailOut] whose joined message is empty or white space only
    (one raised with no argument is such), [_format_bailout_exception]
    gives the text [Bail out! None] and a line feed. *)
Theorem format_bailout_blank (e : exn) (msg : string) :
  message e = Some msg ->
  blank msg = true ->
  _format_bailout_exception e = Return ("Bail out! None" ++ nl).
Proof.
  intros Hm H. unfold _format_bailout_exception.
  rewrite join_args_message, Hm, escape_string_eq, H. reflexivity.
Qed.

Lemma format_bailout_blank_witness :
  _format_bailout_exception (mkExn ClsBailOut [] "")
  = Return ("Bail out! None" ++ nl).
Proof.
  exact (format_bailout_blank (mkExn ClsBailOut [] "") "" eq_refl eq_refl).
Defined.

(** With a message that is not blank, the line is [Bail out!] and the
    escaped message. *)
Lemma format_bailout_message (e : exn) (msg : string) :
  message e = Some msg ->
  blank msg = false ->
  _format_bailout_exception e =
  Return ("Bail out! " ++ strip (escape_spec msg) ++ nl).
Proof.
  intros Hm H. unfold _format_bailout_exception.
  rewrite join_args_message, Hm, escape_string_eq, H. cbn [str_of_opt].
  f_equal.
  set (r := strip (escape_spec msg)).
  rewrite <- (append_assoc "Bail out! " r nl). f_equal.
  assert (Hr : blank r = false).
  { unfold r. now rewrite blank_strip, blank_escape_spec. }
  unfold strip at 1.
  rewrite (lstrip_head_clean ("Bail out! " ++ r)) by reflexivity.
  apply rstrip_app.
  - unfold r, strip. apply rstrip_idem.
  - intro H0. apply blank_empty in H0. congruence.
Qed.

(** ** The plan runner *)

(** C4: a plan whose [skipped] flag is set, or with no test point, has
    exactly one line written, [1..0], followed by [ # SKIP] and the reason
    exactly when the plan has a description; the run returns [True] and
    calls no test point (the world is as it was).  The reason is the
    description escaped: for a description as [Plan] stores it, the
    escaping rule applied to it. *)
Theorem skipped_or_empty_plan {World} n (plan : Plan World) (st : State World) :
  skipped plan = true \/ test_points plan = [] ->
  _execute_test_plan plan (_build_stream_writer n) st =
    (Return true,
     written n
       ["1..0" ++
        if truthy (description plan)
        then " # SKIP " ++ str_of_opt (_escape_string (description plan))
        else ""] st) /\
  world (snd (_execute_test_plan plan (_build_stream_writer n) st)) = world st /\
  (forall raw, description plan = _trim_empty_to_none raw ->
     (if truthy (description plan)
      then " # SKIP " ++ str_of_opt (_escape_string (description plan))
      else "") =
     match description plan with
     | Some d => " # SKIP " ++ escape_spec d
     | None => ""
     end).
Proof.
  intro H.
  assert (E : _execute_test_plan plan (_build_stream_writer n) st =
    (Return true,
     written n
       ["1..0" ++
        if truthy (description plan)
        then " # SKIP " ++ str_of_opt (_escape_string (description plan))
        else ""] st)).
  { unfold _execute_test_plan.
    assert (C : (match test_points plan with [] => true | _ => false end
                 || skipped plan) = true).
    { destruct H as [H|H]; rewrite H; [apply orb_true_r | reflexivity]. }
    rewrite C. unfold bind. rewrite writer_written. unfold ret.
    destruct (truthy (description plan)); [reflexivity|].
    now rewrite append_nil_r. }
  split; [exact E|]. split; [now rewrite E|].
  intros raw Hraw. destruct (description plan) as [d|] eqn:D; [|reflexivity].
  symmetry in Hraw. destruct (escape_trimmed raw d Hraw) as [Hne He].
  rewrite He. cbn [truthy str_of_opt].
  apply String.eqb_neq in Hne. now rewrite Hne.
Qed.

Lemma skipped_or_empty_plan_witness :
  _execute_test_plan Sample.skipped_plan (_build_stream_writer 4) Sample.start =
  (Return true, mkState 0 ["    1..0 # SKIP no \#board" ++ nl]).
Proof.
  exact (proj1 (skipped_or_empty_plan 4 Sample.skipped_plan Sample.start
                  (or_introl eq_refl))).
Defined.

(** C3, as the code has it: when a plan that is not skipped has N >= 1
    test points and none of them ends the run ([stops]: by raising
    [BailOut], an object outside [Exception], or a [Skip], a [ToDo] or
    another exception with an item in [args] that is not a [str]), the
    plan line [1..N] is written first, the test points are called in
    registration order, each in the world the one before left, and each
    has exactly one result line, numbered 1 to N in this order, followed
    by its diagnostic block when it has one; the lines of a diagnostic
    block start with two spaces. *)
Theorem plan_lines_in_order {World} n (plan : Plan World) (st : State World)
    (os : list outcome) (w : World) :
  skipped plan = false ->
  test_points plan <> [] ->
  outcomes (test_points plan) (world st) = (os, w) ->
  existsb stops os = false ->
  List.length os = List.length (test_points plan) /\
  _execute_test_plan plan (_build_stream_writer n) st =
    (Return (negb (existsb outcome_fails os)),
     written n
       (("1.." ++ str_of_nat (List.length (test_points plan)))
        :: List.concat
             (map (fun '(i, (d, o)) =>
                     test_line d i (outcome_ok o) (outcome_directive o)
                               (outcome_reason o)
                     :: outcome_diagnostics o)
                  (combine (seq 1 (List.length (test_points plan)))
                           (combine (map snd (test_points plan)) os))))
       (mkState w (stream st))) /\
  Forall (fun o => Forall (fun l => prefix "  " l = true)
                          (outcome_diagnostics o)) os.
Proof.
  intros Hs Hp Ho Hn.
  assert (Hl := outcomes_length _ _ _ _ Ho Hn).
  split; [exact Hl|]. split.
  - rewrite execute_test_plan_runs by assumption.
    rewrite points_loop_eq. cbn [world written stream].
    rewrite Ho. rewrite loop_result_no_stop by exact Hn.
    rewrite points_lines_flat; [|exact Hn | now rewrite length_map].
    rewrite length_map. cbn [andb]. f_equal.
    unfold written. cbn [world stream map]. f_equal.
    now rewrite <- app_assoc.
  - apply Forall_forall. intros o _. apply diagnostics_indented.
Qed.

Lemma plan_lines_in_order_witness :
  _execute_test_plan Sample.math_plan (_build_stream_writer 0) Sample.start =
  (Return false,
   mkState 2 ["1..2" ++ nl; "ok 1" ++ nl; "not ok 2 - sum" ++ nl]).
Proof.
  exact (proj1 (proj2
    (plan_lines_in_order 0 Sample.math_plan Sample.start
       (fst (outcomes (test_points Sample.math_plan) 0)) 2
       eq_refl (fun H => eq_ind (test_points Sample.math_plan)
                           (fun l => match l with [] => False | _ => True end)
                           I [] H)
       eq_refl eq_refl))).
Defined.

(** C3, as stated, fails: the first of the two test points of this plan
    raises [BailOut]; the plan line [1..2] is written, no result line
    follows, and the second test point is not called. *)
Lemma plan_lines_bailout_counterexample :
  skipped Sample.bail_plan = false /\
  List.length (test_points Sample.bail_plan) = 2 /\
  _execute_test_plan Sample.bail_plan (_build_stream_writer 0) Sample.start =
  (Raise (mkExn ClsBailOut [Str "overheat"] ("Error: overheat" ++ nl)),
   mkState 1 ["1..2" ++ nl]).
Proof. repeat split. Qed.

(** C1, as the code has it: when the test point of index i raises
    [ToDo] with [args] that are all [str], the line written for it is
    [not ok i], the description when there is one, [ # TODO] and the
    escaped message of the exception when it is not blank; the [success]
    flag of the plan is left as it was, and the loop goes on with the
    next test point.  With an item in [args] that is not a [str], joining
    them raises [TypeError]: no line is written for the test point and
    the run ends there with that exception. *)
Theorem todo_line_keeps_success {World} n (plan : Plan World)
    (st : State World) pre f d post (s : bool) (st2 : State World) e w :
  skipped plan = false ->
  test_points plan = pre +++ (f, d) :: post ->
  for_enumerate (test_point_step (_build_stream_writer n)) pre 1 true
    (written n ["1.." ++ str_of_nat (List.length (test_points plan))] st)
  = (Return s, st2) ->
  f (world st2) = (Some e, w) ->
  exn_cls e = ClsToDo ->
  _execute_test_plan plan (_build_stream_writer n) st =
  match message e with
  | Some msg =>
      for_enumerate (test_point_step (_build_stream_writer n)) post
        (S (S (List.length pre))) s
        (written n
           ["not ok " ++ str_of_nat (S (List.length pre))
            ++ description_text d
            ++ " # TODO"
            ++ if blank msg then "" else " " ++ strip (escape_spec msg)]
           (mkState w (stream st2)))
  | None => (Raise join_TypeError, mkState w (stream st2))
  end.
Proof.
  intros Hs Hp Hpre Hf He.
  rewrite (plan_runs_split n plan st pre f d post s st2 Hs Hp Hpre).
  rewrite test_point_step_eq, Hf. cbv zeta.
  unfold stops, in_flight, stop_lines, outcome_fails, point_lines,
    outcome_ok, outcome_directive, outcome_reason, outcome_diagnostics.
  rewrite He. destruct (message e) as [msg|].
  - cbn [negb]. rewrite andb_true_r.
    unfold test_line, directive_text. rewrite escape_string_eq.
    destruct (blank msg); reflexivity.
  - now rewrite written_nil.
Qed.

Lemma todo_line_keeps_success_witness :
  _execute_test_plan Sample.mixed_plan (_build_stream_writer 0) Sample.start =
  (Return true,
   mkState 3 ["1..3" ++ nl; "ok 1" ++ nl;
              "not ok 2 - wip # TODO later \# maybe" ++ nl;
              "ok 3 - done" ++ nl]).
Proof.
  exact (todo_line_keeps_success 0 Sample.mixed_plan Sample.start
           [(Sample.passes, None)]
           (Sample.raises ClsToDo "later # maybe") (Some "wip")
           [(Sample.passes, Some "done")]
           true (mkState 1 ["1..3" ++ nl; "ok 1" ++ nl])
           (mkExn ClsToDo [Str "later # maybe"] ("Error: later # maybe" ++ nl)) 2
           eq_refl eq_refl eq_refl eq_refl eq_refl).
Defined.

(** C1, as stated, fails: the only test point of this plan raises
    [ToDo]; the line is written, and the plan returns [True]. *)
Lemma todo_success_counterexample :
  _execute_test_plan Sample.todo_plan (_build_stream_writer 0) Sample.start =
  (Return true,
   mkState 1 ["1..1" ++ nl; "not ok 1 # TODO not implemented" ++ nl]).
Proof. reflexivity. Qed.

(** C8, as the code has it: when the test point of index i raises an
    exception of a class under [Exception] other than [Skip], [ToDo],
    [Fail] and [BailOut], the line [not ok i] (with the description when
    there is one) is written.  When its [args] are all [str], the
    diagnostic block follows: [---], the lines of [exception: ] and the
    message, [traceback: |-], the lines of the trace indented by two
    more, and [...], every line right-stripped and indented by two; the
    loop goes on with [success] cleared.  With an item in [args] that is
    not a [str], joining them raises [TypeError]: no block is written and
    the run ends there with that exception.  Either way a run that
    returns returns [False]. *)
Theorem error_line_and_block {World} n (plan : Plan World)
    (st : State World) pre f d post (s : bool) (st2 : State World) e w :
  skipped plan = false ->
  test_points plan = pre +++ (f, d) :: post ->
  for_enumerate (test_point_step (_build_stream_writer n)) pre 1 true
    (written n ["1.." ++ str_of_nat (List.length (test_points plan))] st)
  = (Return s, st2) ->
  f (world st2) = (Some e, w) ->
  exn_cls e = ClsException ->
  _execute_test_plan plan (_build_stream_writer n) st =
  match message e with
  | Some msg =>
      for_enumerate (test_point_step (_build_stream_writer n)) post
        (S (S (List.length pre))) false
        (written n
           (("not ok " ++ str_of_nat (S (List.length pre))
             ++ description_text d)
            :: ["  ---"]
            +++ map (fun l => "  " ++ rstrip l)
                    (splitlines ("exception: " ++ msg ++ nl))
            +++ ["  traceback: |-"]
            +++ map (fun l => "  " ++ rstrip ("  " ++ l))
                    (splitlines (exn_printed e))
            +++ ["  ..."])
           (mkState w (stream st2)))
  | None =>
      (Raise join_TypeError,
       written n
         ["not ok " ++ str_of_nat (S (List.length pre)) ++ description_text d]
         (mkState w (stream st2)))
  end /\
  (forall b st', _execute_test_plan plan (_build_stream_writer n) st
                 = (Return b, st') -> b = false).
Proof.
  intros Hs Hp Hpre Hf He.
  assert (E : _execute_test_plan plan (_build_stream_writer n) st =
    match message e with
    | Some msg =>
        for_enumerate (test_point_step (_build_stream_writer n)) post
          (S (S (List.length pre))) false
          (written n
             (("not ok " ++ str_of_nat (S (List.length pre))
               ++ description_text d)
              :: diagnostic_block msg (exn_printed e))
             (mkState w (stream st2)))
    | None =>
        (Raise join_TypeError,
         written n
           ["not ok " ++ str_of_nat (S (List.length pre))
            ++ description_text d]
           (mkState w (stream st2)))
    end).
  { rewrite (plan_runs_split n plan st pre f d post s st2 Hs Hp Hpre).
    rewrite test_point_step_eq, Hf. cbv zeta.
    unfold stops, in_flight, stop_lines, outcome_fails, point_lines,
      outcome_ok, outcome_directive, outcome_reason, outcome_diagnostics.
    rewrite He. destruct (message e) as [msg|].
    - cbn [negb]. rewrite andb_false_r.
      unfold test_line, directive_text. now rewrite append_nil_r.
    - unfold test_line, directive_text. now rewrite append_nil_r. }
  split; [exact E|].
  intros b st' H. rewrite E in H.
  destruct (message e); [now apply points_loop_false in H | discriminate].
Qed.

Lemma error_line_and_block_witness :
  _execute_test_plan Sample.error_plan (_build_stream_writer 0) Sample.start =
  (Return false,
   mkState 1 ["1..1" ++ nl; "not ok 1 - explodes" ++ nl;
              "  ---" ++ nl; "  exception: boom" ++ nl;
              "  traceback: |-" ++ nl; "    Error: boom" ++ nl;
              "  ..." ++ nl]).
Proof.
  exact (proj1 (error_line_and_block 0 Sample.error_plan Sample.start
           [] (Sample.raises ClsException "boom") (Some "explodes") []
           true (mkState 0 ["1..1" ++ nl])
           (mkExn ClsException [Str "boom"] ("Error: boom" ++ nl)) 1
           eq_refl eq_refl eq_refl eq_refl eq_refl)).
Defined.

(** C8, as stated, fails: the test point of this plan raises an object of
    a class outside [Exception] (a [KeyboardInterrupt], say), which is
    none of [Skip], [ToDo], [Fail] and [BailOut]; no line is written for
    it and it leaves the plan runner in flight. *)
Lemma error_outside_exception_counterexample :
  _execute_test_plan Sample.interrupt_plan (_build_stream_writer 0)
    Sample.start =
  (Raise (mkExn ClsBaseException [Str ""] ("Error: " ++ nl)),
   mkState 1 ["1..1" ++ nl]).
Proof. reflexivity. Qed.

(** ** The session orchestrator *)



(** C2, as the code has it: a test point that raises [BailOut] gets no
    line: the plan runner stops there with this very exception in flight,
    and the test points after it are not called.  In multi mode, when the
    run of a plan raises a [BailOut] whose [args] are all [str], the
    orchestrator writes the bail-out text and returns: what was written
    so far stays, nothing follows, neither for the plans after it nor as
    a roll-up, whatever the root-plan flag.  With an item in [args] that
    is not a [str], formatting the bail-out raises [TypeError]: nothing
    more is written and that exception leaves the orchestrator. *)
Theorem bailout_ends_session {World} :
  (forall n (plan : Plan World) (st : State World) pre f d post
          (s : bool) (st2 : State World) e w,
     skipped plan = false ->
     test_points plan = pre +++ (f, d) :: post ->
     for_enumerate (test_point_step (_build_stream_writer n)) pre 1 true
       (written n ["1.." ++ str_of_nat (List.length (test_points plan))] st)
     = (Return s, st2) ->
     f (world st2) = (Some e, w) ->
     exn_cls e = ClsBailOut ->
     _execute_test_plan plan (_build_stream_writer n) st =
     (Raise e, mkState w (stream st2)))
  /\
  (forall (plans : plans_arg World) (root_plan : bool) (st : State World)
          before plan after results (st2 : State World) e (st3 : State World),
     single_plan plans = None ->
     plans_of plans = before +++ plan :: after ->
     plans_run before
       (written 0
          ("TAP version 14"
           :: if root_plan
              then ["1.." ++ str_of_nat (List.length (plans_of plans))]
              else []) st)
       results st2 ->
     _execute_test_plan plan (_build_stream_writer 4)
       (written 0 ["# Tests for " ++ file_name plan] st2) = (Raise e, st3) ->
     exn_cls e = ClsBailOut ->
     match message e with
     | Some msg =>
         exists text,
           _format_bailout_exception e = Return text /\
           execute_test_plans plans root_plan st =
           (Return tt, written 0 [text] st3)
     | None =>
         execute_test_plans plans root_plan st = (Raise join_TypeError, st3)
     end).
Proof.
  split.
  - intros n plan st pre f d post s st2 e w Hs Hp Hpre Hf He.
    rewrite (plan_runs_split n plan st pre f d post s st2 Hs Hp Hpre).
    rewrite test_point_step_eq, Hf. cbv zeta.
    unfold stops, in_flight, stop_lines. rewrite He.
    now rewrite written_nil.
  - intros plans root_plan st before plan after results st2 e st3
      Hm Hp Hrun Hplan He.
    assert (E : execute_test_plans plans root_plan st =
      match _format_bailout_exception e with
      | Return text => (Return tt, written 0 [text] st3)
      | Raise e' => (Raise e', st3)
      end).
    { rewrite (execute_multi plans root_plan st Hm).
      set (hdr := written 0 _ st) in *. clearbody hdr.
      rewrite Hp. rewrite (plans_run_loop _ _ _ _ _ Hrun).
      rewrite plans_loop_step, Hplan.
      unfold is_BailOut. rewrite He.
      now destruct (_format_bailout_exception e). }
    unfold _format_bailout_exception in *. rewrite join_args_message in *.
    destruct (message e) as [msg|]; [|exact E].
    eexists. split; [reflexivity | exact E].
Qed.

Lemma bailout_ends_session_witness :
  _execute_test_plan Sample.overheat_plan (_build_stream_writer 4)
    Sample.start =
  (Raise (mkExn ClsBailOut [Str "overheat"] ("Error: overheat" ++ nl)),
   mkState 1 ["    1..1" ++ nl])
  /\
  execute_test_plans
    (PlanList [Sample.math_plan; Sample.overheat_plan; Sample.pass_plan])
    true Sample.start =
  (Return tt,
   mkState 3 ["TAP version 14" ++ nl; "1..3" ++ nl;
              "# Tests for test_math.py" ++ nl;
              "    1..2" ++ nl; "    ok 1" ++ nl; "    not ok 2 - sum" ++ nl;
              "# Tests for test_overheat.py" ++ nl;
              "    1..1" ++ nl;
              "Bail out! overheat" ++ nl ++ nl]).
Proof.
  split.
  - exact (proj1 bailout_ends_session 4 Sample.overheat_plan Sample.start
             [] (Sample.raises ClsBailOut "overheat") None []
             true (mkState 0 ["    1..1" ++ nl])
             (mkExn ClsBailOut [Str "overheat"] ("Error: overheat" ++ nl)) 1
             eq_refl eq_refl eq_refl eq_refl eq_refl).
  - destruct (proj2 bailout_ends_session
             (PlanList [Sample.math_plan; Sample.overheat_plan;
                        Sample.pass_plan])
             true Sample.start
             [Sample.math_plan] Sample.overheat_plan [Sample.pass_plan]
             [false]
             (mkState 2 ["TAP version 14" ++ nl; "1..3" ++ nl;
                         "# Tests for test_math.py" ++ nl;
                         "    1..2" ++ nl; "    ok 1" ++ nl;
                         "    not ok 2 - sum" ++ nl])
             (mkExn ClsBailOut [Str "overheat"] ("Error: overheat" ++ nl))
             (mkState 3 ["TAP version 14" ++ nl; "1..3" ++ nl;
                         "# Tests for test_math.py" ++ nl;
                         "    1..2" ++ nl; "    ok 1" ++ nl;
                         "    not ok 2 - sum" ++ nl;
                         "# Tests for test_overheat.py" ++ nl;
                         "    1..1" ++ nl])
             eq_refl eq_refl
             (plans_run_cons Sample.math_plan []
                (mkState 0 ["TAP version 14" ++ nl; "1..3" ++ nl]) false
                (mkState 2 ["TAP version 14" ++ nl; "1..3" ++ nl;
                            "# Tests for test_math.py" ++ nl;
                            "    1..2" ++ nl; "    ok 1" ++ nl;
                            "    not ok 2 - sum" ++ nl])
                [] _ eq_refl (plans_run_nil _))
             eq_refl eq_refl) as [text [Ht Hrun]].
    injection Ht as <-. exact Hrun.
Defined.

(** C2, as stated, fails: the only test point of the second plan raises
    a [BailOut] with an argument that is not a [str]; no bail-out line is
    written after the plan line of that plan, and the [TypeError] of the
    join leaves the orchestrator. *)
Lemma bailout_not_str_counterexample :
  execute_test_plans
    (PlanList [Sample.pass_plan; Sample2.bail_code_plan; Sample.pass_plan])
    true Sample.start =
  (Raise join_TypeError,
   mkState 2 ["TAP version 14" ++ nl; "1..3" ++ nl;
              "# Tests for test_pass.py" ++ nl;
              "    1..1" ++ nl; "    ok 1" ++ nl;
              "# Tests for test_bail.py" ++ nl;
              "    1..1" ++ nl]).
Proof. reflexivity. Qed.

(** C5, as the code has it: given one [Plan], or a [list] or a [tuple]
    of exactly one plan, the run is in single mode whatever the root-plan
    flag: [TAP version 14] is written, then the plan runs with the writer
    of no indentation, with no root plan line and no comment line; a
    [BailOut] raised by that run is caught; when its [args] are all
    [str] the bail-out text is written and nothing after it, and with an
    item that is not a [str] nothing is written and the [TypeError] of
    the join leaves the function. *)
Theorem single_mode {World} (plans : plans_arg World) (plan : Plan World)
    (root_plan : bool) (st : State World) :
  plans = OnePlan plan \/ plans = PlanList [plan] \/ plans = PlanTuple [plan] ->
  execute_test_plans plans root_plan st =
  match _execute_test_plan plan (_build_stream_writer 0)
          (written 0 ["TAP version 14"] st) with
  | (Return _, st') => (Return tt, st')
  | (Raise e, st') =>
      if is_BailOut e
      then match message e with
           | Some msg =>
               (Return tt,
                written 0
                  [strip ("Bail out! "
                          ++ str_of_opt (_escape_string (Some msg))) ++ nl]
                  st')
           | None => (Raise join_TypeError, st')
           end
      else (Raise e, st')
  end.
Proof.
  intro H. rewrite (execute_single plans root_plan plan st).
  - destruct (_execute_test_plan plan _ _) as [[b|e] st']; [reflexivity|].
    destruct (is_BailOut e); [|reflexivity].
    unfold _format_bailout_exception. rewrite join_args_message.
    now destruct (message e).
  - destruct H as [-> | [-> | ->]]; reflexivity.
Qed.

Lemma single_mode_witness :
  execute_test_plans (PlanTuple [Sample.bail_plan]) true Sample.start =
  (Return tt,
   mkState 1 ["TAP version 14" ++ nl; "1..2" ++ nl;
              "Bail out! overheat" ++ nl ++ nl]).
Proof.
  exact (single_mode (PlanTuple [Sample.bail_plan]) Sample.bail_plan true
           Sample.start (or_intror (or_intror eq_refl))).
Defined.

(** C5, as stated, fails: one plan in a sequence that is neither a [list]
    nor a [tuple] runs in multi mode, with the root plan line, the comment
    line, the indentation and the roll-up line; the same plan given
    directly runs in single mode. *)
Lemma single_mode_other_sequence_counterexample :
  execute_test_plans (PlanSeq [Sample.pass_plan]) true Sample.start =
  (Return tt,
   mkState 1 ["TAP version 14" ++ nl; "1..1" ++ nl;
              "# Tests for test_pass.py" ++ nl;
              "    1..1" ++ nl; "    ok 1" ++ nl;
              "ok 1" ++ nl])
  /\
  execute_test_plans (OnePlan Sample.pass_plan) true Sample.start =
  (Return tt,
   mkState 1 ["TAP version 14" ++ nl; "1..1" ++ nl; "ok 1" ++ nl]).
Proof. split; reflexivity. Qed.




(** C10: for an empty sequence of plans and the root-plan flag set, the
    run is in multi mode and writes two lines, [TAP version 14] and
    [1..0], and nothing else; no test point is called. *)
Theorem no_plans_report {World} (st : State World) :
  execute_test_plans (PlanList []) true st =
    (Return tt, written 0 ["TAP version 14"; "1..0"] st) /\
  execute_test_plans (PlanTuple []) true st =
    (Return tt, written 0 ["TAP version 14"; "1..0"] st) /\
  execute_test_plans (PlanSeq []) true st =
    (Return tt, written 0 ["TAP version 14"; "1..0"] st).
Proof.
  repeat split; rewrite execute_multi by reflexivity;
    cbn [plans_of plans_loop List.length]; unfold ret; cbv iota;
    cbn [rollup_lines]; now rewrite written_nil.
Qed.

(** * Further properties *)

(** ** The helpers on strings *)

Lemma rstrip_head_clean (c : ascii) (s : string) :
  isspace c = false -> rstrip (String c s) = String c (rstrip s).
Proof. intro H. cbn [rstrip]. now rewrite H. Qed.

Lemma escape_char_spec_space (c : ascii) :
  isspace c = true -> escape_char_spec c = String c "".
Proof.
  intro H. unfold escape_char_spec.
  destruct (Ascii.eqb c "\") eqn:E1.
  { apply Ascii.eqb_eq in E1. subst c. discriminate. }
  destruct (Ascii.eqb c "#") eqn:E2.
  { apply Ascii.eqb_eq in E2. subst c. discriminate. }
  reflexivity.
Qed.

Lemma lstrip_escape_spec (s : string) :
  lstrip (escape_spec s) = escape_spec (lstrip s).
Proof.
  induction s as [|c s IH]; [reflexivity|].
  cbn [lstrip]. destruct (isspace c) eqn:E.
  - cbn [escape_spec]. rewrite (escape_char_spec_space c E).
    cbn [append lstrip]. now rewrite E.
  - apply lstrip_head_clean, head_clean_escape_spec.
    cbn [head_clean]. now rewrite E.
Qed.

Lemma rstrip_escape_char (c : ascii) (t : string) :
  isspace c = false ->
  rstrip (escape_char_spec c ++ t) = escape_char_spec c ++ rstrip t.
Proof.
  intro H. unfold escape_char_spec.
  destruct (Ascii.eqb c "\"); [reflexivity|].
  destruct (Ascii.eqb c "#"); [reflexivity|].
  cbn [append]. now apply rstrip_head_clean.
Qed.

Lemma rstrip_escape_spec_comm (s : string) :
  rstrip (escape_spec s) = escape_spec (rstrip s).
Proof.
  induction s as [|c s IH]; [reflexivity|].
  cbn [escape_spec rstrip]. destruct (isspace c) eqn:E.
  - rewrite (escape_char_spec_space c E). cbn [append rstrip andb].
    rewrite E, IH. cbn [andb].
    destruct (rstrip s) as [|c' r] eqn:R; [reflexivity|].
    destruct (escape_spec (String c' r)) eqn:X.
    + apply escape_spec_empty in X. discriminate.
    + cbn [String.eqb escape_spec]. rewrite (escape_char_spec_space c E).
      rewrite <- X. reflexivity.
  - cbn [andb escape_spec]. rewrite rstrip_escape_char by exact E.
    now rewrite IH.
Qed.

Lemma strip_escape_spec (s : string) :
  strip (escape_spec s) = escape_spec (strip s).
Proof.
  unfold strip. now rewrite lstrip_escape_spec, rstrip_escape_spec_comm.
Qed.

Lemma escape_spec_injective (a : string) : forall b,
  escape_spec a = escape_spec b -> a = b.
Proof.
  induction a as [|x a IH]; intros [|y b] H.
  - reflexivity.
  - symmetry in H. apply escape_spec_empty in H. discriminate.
  - apply escape_spec_empty in H. discriminate.
  - cbn [escape_spec] in H. unfold escape_char_spec in H.
    destruct (Ascii.eqb x "\") eqn:X1; destruct (Ascii.eqb y "\") eqn:Y1;
      try destruct (Ascii.eqb x "#") eqn:X2;
      try destruct (Ascii.eqb y "#") eqn:Y2;
      cbn [append] in H;
      repeat match goal with
             | E : Ascii.eqb _ _ = true |- _ => apply Ascii.eqb_eq in E
             end;
      subst; try discriminate; try congruence;
      try (injection H as H; f_equal; now apply IH);
      try (injection H as H1 H2; subst y; f_equal; now apply IH);
      try (injection H as H1 H2; subst;
           rewrite ?Ascii.eqb_refl in *; discriminate).
Qed.

(** X1: [_trim_empty_to_none] gives [None] for [None] and for a blank
    string; what it gives otherwise is not blank and has no white space
    around it, and trimming again changes nothing. *)
Theorem trim_empty_to_none_trimmed (x : option string) :
  trimmed (_trim_empty_to_none x) /\
  _trim_empty_to_none (_trim_empty_to_none x) = _trim_empty_to_none x /\
  (_trim_empty_to_none x = None <->
   x = None \/ exists s, x = Some s /\ blank s = true).
Proof.
  destruct x as [s|].
  - rewrite trim_empty_to_none_eq. destruct (blank s) eqn:B.
    + repeat split; try reflexivity.
      intros _. right. now exists s.
    + repeat split.
      * now rewrite blank_strip.
      * apply strip_idem.
      * rewrite trim_empty_to_none_eq, blank_strip, B. now rewrite strip_idem.
      * discriminate.
      * intros [H|[s' [H1 H2]]]; [discriminate|]. congruence.
  - repeat split; try reflexivity. intros _. now left.
Qed.

(** X2: [_escape_string] is [_trim_empty_to_none] followed by the
    escaping rule: stripping before or after the replacements is the
    same. *)
Theorem escape_string_is_trim_then_escape (x : option string) :
  _escape_string x = option_map escape_spec (_trim_empty_to_none x).
Proof.
  destruct x as [s|]; [|reflexivity].
  rewrite escape_string_eq, trim_empty_to_none_eq.
  destruct (blank s); [reflexivity|].
  cbn [option_map]. now rewrite strip_escape_spec.
Qed.

(** X3: the escaping loses nothing but the white space around the text:
    two texts escape to the same reason exactly when they trim to the
    same text. *)
Theorem escape_string_injective (x y : option string) :
  _escape_string x = _escape_string y <->
  _trim_empty_to_none x = _trim_empty_to_none y.
Proof.
  rewrite !escape_string_is_trim_then_escape. split.
  - destruct (_trim_empty_to_none x) as [a|], (_trim_empty_to_none y) as [b|];
      cbn [option_map]; intro H; try discriminate; [|reflexivity].
    injection H as H. f_equal. now apply escape_spec_injective.
  - now intros ->.
Qed.

Lemma unescaped_hash_escape_spec (s : string) :
  unescaped_hash (escape_spec s) false = false.
Proof.
  induction s as [|c s IH]; [reflexivity|].
  cbn [escape_spec]. unfold escape_char_spec.
  destruct (Ascii.eqb c "\") eqn:E1; [exact IH|].
  destruct (Ascii.eqb c "#") eqn:E2; [exact IH|].
  cbn [append unescaped_hash]. now rewrite E1, E2.
Qed.

(** X4: in what [_escape_string] returns, every hash is escaped: read
    from the left with each backslash taking the character after it, no
    hash is left over to start a directive. *)
Theorem escape_string_no_bare_hash (x : option string) (r : string) :
  _escape_string x = Some r -> unescaped_hash r false = false.
Proof.
  rewrite escape_string_is_trim_then_escape.
  destruct (_trim_empty_to_none x) as [d|]; [|discriminate].
  cbn [option_map]. intro H. injection H as <-.
  apply unescaped_hash_escape_spec.
Qed.

Lemma escape_string_no_bare_hash_witness :
  _escape_string (Some " 50# done \ ") = Some "50\# done \\" /\
  unescaped_hash "50\# done \\" false = false.
Proof.
  split; [reflexivity|].
  exact (escape_string_no_bare_hash (Some " 50# done \ ") "50\# done \\"
           eq_refl).
Defined.

(** ** Plans *)

Lemma trimmed_truthy (d : option string) :
  trimmed d -> truthy d = match d with Some _ => true | None => false end.
Proof.
  destruct d as [s|]; [|reflexivity]. intros [B _]. cbn [truthy].
  destruct s; [discriminate | reflexivity].
Qed.

(** X5: a plan made by [Plan(...)] and [add_test_point] keeps its
    description and those of its test points trimmed: none, or a text
    that is not blank with no white space around it; so the truth value
    the writers test tells exactly whether there is a description. *)
Theorem built_plan_trimmed {World} (plan : Plan World) :
  built plan ->
  trimmed (description plan) /\
  truthy (description plan)
    = match description plan with Some _ => true | None => false end /\
  Forall (fun t =>
            trimmed (snd t) /\
            truthy (snd t)
              = match snd t with Some _ => true | None => false end)
         (test_points plan).
Proof.
  intro H.
  assert (G : trimmed (description plan) /\
              Forall (fun t => trimmed (snd t)) (test_points plan)).
  { induction H as [fn d sk | plan f d _ [IH1 IH2]].
    - split; [apply trim_empty_to_none_trimmed | constructor].
    - split; [exact IH1|]. cbn [add_test_point test_points].
      apply Forall_app. split; [exact IH2|].
      constructor; [apply trim_empty_to_none_trimmed | constructor]. }
  destruct G as [G1 G2]. split; [exact G1|].
  split; [now apply trimmed_truthy|].
  eapply Forall_impl; [|exact G2].
  intros t Ht. split; [exact Ht | now apply trimmed_truthy].
Qed.

Lemma built_plan_trimmed_witness :
  description Sample.skipped_plan = Some "no #board" /\
  trimmed (description Sample.skipped_plan).
Proof.
  split; [reflexivity|].
  exact (proj1 (built_plan_trimmed Sample.skipped_plan
                  (built_add _ _ _ (built_init _ _ _)))).
Defined.

(** ** More on the plan runner *)

(** X6: when the test point of index i raises [Skip] with [args] that
    are all [str], the line written for it is [ok i], the description
    when there is one, [ # SKIP] and the escaped message when it is not
    blank; the [success] flag is left as it was and the loop goes on.
    With an item in [args] that is not a [str], joining them raises
    [TypeError]: no line is written for the test point and the run ends
    there with that exception. *)
Theorem skip_line_keeps_success {World} n (plan : Plan World)
    (st : State World) pre f d post (s : bool) (st2 : State World) e w :
  skipped plan = false ->
  test_points plan = pre +++ (f, d) :: post ->
  for_enumerate (test_point_step (_build_stream_writer n)) pre 1 true
    (written n ["1.." ++ str_of_nat (List.length (test_points plan))] st)
  = (Return s, st2) ->
  f (world st2) = (Some e, w) ->
  exn_cls e = ClsSkip ->
  _execute_test_plan plan (_build_stream_writer n) st =
  match message e with
  | Some msg =>
      for_enumerate (test_point_step (_build_stream_writer n)) post
        (S (S (List.length pre))) s
        (written n
           ["ok " ++ str_of_nat (S (List.length pre))
            ++ description_text d
            ++ " # SKIP"
            ++ if blank msg then "" else " " ++ strip (escape_spec msg)]
           (mkState w (stream st2)))
  | None => (Raise join_TypeError, mkState w (stream st2))
  end.
Proof.
  intros Hs Hp Hpre Hf He.
  rewrite (plan_runs_split n plan st pre f d post s st2 Hs Hp Hpre).
  rewrite test_point_step_eq, Hf. cbv zeta.
  unfold stops, in_flight, stop_lines, outcome_fails, point_lines,
    outcome_ok, outcome_directive, outcome_reason, outcome_diagnostics.
  rewrite He. destruct (message e) as [msg|].
  - cbn [negb]. rewrite andb_true_r.
    unfold test_line, directive_text. rewrite escape_string_eq.
    destruct (blank msg); reflexivity.
  - now rewrite written_nil.
Qed.

Lemma skip_line_keeps_success_witness :
  _execute_test_plan Sample2.skip_plan (_build_stream_writer 0) Sample.start =
  (Return false,
   mkState 2 ["1..2" ++ nl; "not ok 1" ++ nl;
              "ok 2 - i2c # SKIP device absent" ++ nl]).
Proof.
  exact (skip_line_keeps_success 0 Sample2.skip_plan Sample.start
           [(Sample.raises ClsFail "bad", None)]
           (Sample.raises ClsSkip "device absent") (Some "i2c") []
           false (mkState 1 ["1..2" ++ nl; "not ok 1" ++ nl])
           (mkExn ClsSkip [Str "device absent"] ("Error: device absent" ++ nl)) 2
           eq_refl eq_refl eq_refl eq_refl eq_refl).
Defined.

(** X7: when the test point of index i raises [Fail], the line written
    for it is [not ok i] and the description when there is one, with no
    directive, no diagnostic and nothing of the message; the loop goes on
    with [success] cleared, and a run that returns returns [False]. *)
Theorem fail_line_clears_success {World} n (plan : Plan World)
    (st : State World) pre f d post (s : bool) (st2 : State World) e w :
  skipped plan = false ->
  test_points plan = pre +++ (f, d) :: post ->
  for_enumerate (test_point_step (_build_stream_writer n)) pre 1 true
    (written n ["1.." ++ str_of_nat (List.length (test_points plan))] st)
  = (Return s, st2) ->
  f (world st2) = (Some e, w) ->
  exn_cls e = ClsFail ->
  _execute_test_plan plan (_build_stream_writer n) st =
  for_enumerate (test_point_step (_build_stream_writer n)) post
    (S (S (List.length pre))) false
    (written n
       ["not ok " ++ str_of_nat (S (List.length pre)) ++ description_text d]
       (mkState w (stream st2))) /\
  (forall b st', _execute_test_plan plan (_build_stream_writer n) st
                 = (Return b, st') -> b = false).
Proof.
  intros Hs Hp Hpre Hf He.
  assert (E : _execute_test_plan plan (_build_stream_writer n) st =
    for_enumerate (test_point_step (_build_stream_writer n)) post
      (S (S (List.length pre))) false
      (written n
         ["not ok " ++ str_of_nat (S (List.length pre)) ++ description_text d]
         (mkState w (stream st2)))).
  { rewrite (plan_runs_split n plan st pre f d post s st2 Hs Hp Hpre).
    rewrite test_point_step_eq, Hf. cbv zeta.
    unfold stops, outcome_fails, point_lines, outcome_ok, outcome_directive,
      outcome_reason, outcome_diagnostics. rewrite He.
    cbn [negb]. rewrite andb_false_r.
    unfold test_line, directive_text. now rewrite append_nil_r. }
  split; [exact E|].
  intros b st' H. rewrite E in H. now apply points_loop_false in H.
Qed.

Lemma fail_line_clears_success_witness :
  _execute_test_plan Sample2.fail_plan (_build_stream_writer 2) Sample.start =
  (Return false,
   mkState 2 ["  1..2" ++ nl; "  ok 1 - first" ++ nl;
              "  not ok 2 - sum" ++ nl]).
Proof.
  exact (proj1 (fail_line_clears_success 2 Sample2.fail_plan Sample.start
           [(Sample.passes, Some "first")]
           (Sample.raises ClsFail "bad sum") (Some "sum") []
           true (mkState 1 ["  1..2" ++ nl; "  ok 1 - first" ++ nl])
           (mkExn ClsFail [Str "bad sum"] ("Error: bad sum" ++ nl)) 2
           eq_refl eq_refl eq_refl eq_refl eq_refl)).
Defined.

(** X8: when the test point of index i returns, the line written for it
    is [ok i] and the description when there is one; the [success] flag
    is left as it was and the loop goes on. *)
Theorem pass_line_keeps_success {World} n (plan : Plan World)
    (st : State World) pre f d post (s : bool) (st2 : State World) w :
  skipped plan = false ->
  test_points plan = pre +++ (f, d) :: post ->
  for_enumerate (test_point_step (_build_stream_writer n)) pre 1 true
    (written n ["1.." ++ str_of_nat (List.length (test_points plan))] st)
  = (Return s, st2) ->
  f (world st2) = (None, w) ->
  _execute_test_plan plan (_build_stream_writer n) st =
  for_enumerate (test_point_step (_build_stream_writer n)) post
    (S (S (List.length pre))) s
    (written n
       ["ok " ++ str_of_nat (S (List.length pre)) ++ description_text d]
       (mkState w (stream st2))).
Proof.
  intros Hs Hp Hpre Hf.
  rewrite (plan_runs_split n plan st pre f d post s st2 Hs Hp Hpre).
  rewrite test_point_step_eq, Hf. cbv zeta.
  unfold point_lines, outcome_ok, outcome_directive, outcome_reason,
    outcome_diagnostics, test_line, directive_text.
  now rewrite append_nil_r.
Qed.

Lemma pass_line_keeps_success_witness :
  _execute_test_plan Sample2.fail_plan (_build_stream_writer 0) Sample.start =
  (Return false,
   mkState 2 ["1..2" ++ nl; "ok 1 - first" ++ nl; "not ok 2 - sum" ++ nl]).
Proof.
  exact (pass_line_keeps_success 0 Sample2.fail_plan Sample.start
           [] Sample.passes (Some "first")
           [(Sample.raises ClsFail "bad sum", Some "sum")]
           true (mkState 0 ["1..2" ++ nl]) 1
           eq_refl eq_refl eq_refl eq_refl).
Defined.

Lemma loop_result_raise (os : list outcome) : forall (s : bool) e,
  loop_result s os = Raise e ->
  exists e0, In (Some e0) os /\ stops (Some e0) = true /\ e = in_flight e0.
Proof.
  induction os as [|o os IH]; intros s e H; cbn [loop_result] in H.
  - discriminate.
  - destruct o as [x|].
    + destruct (stops (Some x)) eqn:Ex.
      * injection H as <-. exists x. repeat split; [now left | exact Ex].
      * destruct (IH _ _ H) as (e0 & H1 & H2 & H3).
        exists e0. repeat split; [now right | exact H2 | exact H3].
    + destruct (IH _ _ H) as (e0 & H1 & H2 & H3).
      exists e0. repeat split; [now right | exact H2 | exact H3].
Qed.

(** What ends a run, and what is then in flight. *)
Lemma stops_cases (e0 : exn) :
  stops (Some e0) = true ->
  (in_flight e0 = e0 /\
   (exn_cls e0 = ClsBailOut \/ exn_cls e0 = ClsBaseException)) \/
  (in_flight e0 = join_TypeError /\ message e0 = None /\
   (exn_cls e0 = ClsSkip \/ exn_cls e0 = ClsToDo
    \/ exn_cls e0 = ClsException)).
Proof.
  unfold stops, in_flight.
  destruct (exn_cls e0), (message e0); intro H; try discriminate; auto 7.
Qed.

Lemma outcomes_in {World} (tps : list (test_fn World * option string)) :
  forall (w w' : World) os o,
  outcomes tps w = (os, w') -> In o os ->
  exists f d w0, In (f, d) tps /\ fst (f w0) = o.
Proof.
  induction tps as [|[f d] rest IH]; intros w w' os o H Hin;
    cbn [outcomes] in H.
  - injection H as <- _. contradiction.
  - destruct (f w) as [o1 w1] eqn:Ef. destruct (stops o1).
    + injection H as <- _. destruct Hin as [<-|[]].
      exists f, d, w. split; [now left | now rewrite Ef].
    + destruct (outcomes rest w1) as [os1 w2] eqn:E1.
      injection H as <- _. destruct Hin as [<-|Hin].
      * exists f, d, w. split; [now left | now rewrite Ef].
      * destruct (IH _ _ _ _ E1 Hin) as (f' & d' & w0 & H1 & H2).
        exists f', d', w0. split; [now right | exact H2].
Qed.

(** X9: when a run of the plan runner ends with an exception in flight,
    the plan was not skipped and one of its test points raised: either a
    [BailOut] or an object of a class outside [Exception], and this is
    the exception in flight, unchanged; or a [Skip], a [ToDo] or another
    exception with an item in [args] that is not a [str], and what is in
    flight is the [TypeError] of joining them.  A [Fail], and a [Skip], a
    [ToDo] or another exception whose [args] are all [str], never end the
    run. *)
Theorem plan_runner_raises_only {World} n (plan : Plan World)
    (st : State World) e (st' : State World) :
  _execute_test_plan plan (_build_stream_writer n) st = (Raise e, st') ->
  skipped plan = false /\
  exists f d w e0,
    In (f, d) (test_points plan) /\ fst (f w) = Some e0 /\
    ((e = e0 /\
      (exn_cls e0 = ClsBailOut \/ exn_cls e0 = ClsBaseException)) \/
     (e = join_TypeError /\ message e0 = None /\
      (exn_cls e0 = ClsSkip \/ exn_cls e0 = ClsToDo
       \/ exn_cls e0 = ClsException))).
Proof.
  intro H.
  destruct (skipped plan) eqn:Hs.
  { rewrite (skipped_or_empty_plan_aux n plan st (or_introl Hs)) in H.
    discriminate. }
  destruct (test_points plan) as [|t ts] eqn:Hp.
  { rewrite (skipped_or_empty_plan_aux n plan st (or_intror Hp)) in H.
    discriminate. }
  rewrite execute_test_plan_runs in H; [|exact Hs | now rewrite Hp].
  rewrite points_loop_eq in H. rewrite <- Hp in *.
  destruct (outcomes (test_points plan) _) as [os w] eqn:Eo.
  injection H as H _.
  apply loop_result_raise in H as (e0 & Hin & Hstop & ->).
  split; [reflexivity|].
  destruct (outcomes_in _ _ _ _ _ Eo Hin) as (f & d & w0 & Hf & Hw).
  exists f, d, w0, e0. split; [exact Hf|]. split; [exact Hw|].
  destruct (stops_cases e0 Hstop) as [[-> Hc] | (-> & Hm & Hc)]; auto.
Qed.

Lemma plan_runner_raises_only_witness :
  _execute_test_plan Sample2.oserror_plan (_build_stream_writer 0)
    Sample.start =
  (Raise join_TypeError, mkState 1 ["1..2" ++ nl; "not ok 1" ++ nl]) /\
  skipped Sample2.oserror_plan = false.
Proof.
  split; [reflexivity|].
  exact (proj1 (plan_runner_raises_only 0 Sample2.oserror_plan Sample.start
                  join_TypeError
                  (mkState 1 ["1..2" ++ nl; "not ok 1" ++ nl]) eq_refl)).
Defined.

(** X10: whatever a plan does, its run only adds to the stream: what was
    written before stays, the first line added is the plan line, and the
    indentation changes nothing but the spaces in front of each line;
    the value or the exception, the world left and the lines are the
    same for every indentation. *)
Theorem plan_output_appended {World} (plan : Plan World) (st : State World) :
  exists (r : result bool) (w : World) (first : string) (rest : list string),
    prefix "1.." first = true /\
    forall n,
      _execute_test_plan plan (_build_stream_writer n) st =
      (r, written n (first :: rest) (mkState w (stream st))).
Proof.
  destruct (skipped plan) eqn:Hs.
  { eexists _, (world st), _, []. split; [|intro n].
    2:{ rewrite (skipped_or_empty_plan_aux n plan st (or_introl Hs)).
        now rewrite state_eta. }
    reflexivity. }
  destruct (test_points plan) as [|t ts] eqn:Hp.
  { eexists _, (world st), _, []. split; [|intro n].
    2:{ rewrite (skipped_or_empty_plan_aux n plan st (or_intror Hp)).
        now rewrite state_eta. }
    reflexivity. }
  destruct (outcomes (test_points plan) (world st)) as [os w] eqn:Eo.
  exists (loop_result true os), w,
    ("1.." ++ str_of_nat (List.length (test_points plan))),
    (points_lines 1 (map snd (test_points plan)) os).
  split; [cbn; apply prefix_empty|].
  intro n.
  rewrite execute_test_plan_runs; [|exact Hs | now rewrite Hp].
  rewrite points_loop_eq. cbn [world written stream]. rewrite Eo.
  f_equal. unfold written. cbn [world stream map]. f_equal.
  now rewrite <- app_assoc.
Qed.

(** ** Formatting *)

(** X11: for an exception whose [args] are all [str] and whose message
    has no line end in it, [_format_exception] returns a text that is,
    line by line: [---], [exception: ] and the message, [traceback: |-],
    the lines [print_exception] gives, each after two spaces, and
    [...]. *)
Theorem format_exception_block (e : exn) (msg : string) :
  message e = Some msg ->
  no_break msg = true ->
  exists text,
    _format_exception e = Return text /\
    splitlines text =
    ["---"; "exception: " ++ msg; "traceback: |-"]
    +++ map (fun l => "  " ++ l) (splitlines (exn_printed e))
    +++ ["..."].
Proof.
  intros Hm H. unfold _format_exception.
  rewrite join_args_message, Hm. eexists. split; [reflexivity|].
  rewrite fold_left_trace.
  set (t := fold_right (fun line r => "  " ++ line ++ nl ++ r) ""
                       (splitlines (exn_printed e))).
  replace ((((("---" ++ nl) ++ "exception: " ++ msg ++ nl)
            ++ "traceback: |-" ++ nl) ++ t) ++ "..." ++ nl)
    with ("---" ++ nl ++ ("exception: " ++ msg) ++ nl
          ++ "traceback: |-" ++ nl ++ t ++ "..." ++ nl)
    by (rewrite !append_assoc; reflexivity).
  rewrite (splitlines_line "---") by reflexivity.
  rewrite (splitlines_line ("exception: " ++ msg)) by exact H.
  rewrite (splitlines_line "traceback: |-") by reflexivity.
  unfold t. rewrite splitlines_trace by apply splitlines_no_break.
  reflexivity.
Qed.

Lemma format_exception_block_witness :
  exists text,
    _format_exception
      (mkExn ClsException [Str "division"; Str "by zero"]
         ("Traceback (most recent call last):" ++ nl
          ++ "ZeroDivisionError: division by zero" ++ nl)) = Return text /\
    splitlines text =
    ["---"; "exception: division by zero"; "traceback: |-";
     "  Traceback (most recent call last):";
     "  ZeroDivisionError: division by zero"; "..."].
Proof.
  exact (format_exception_block
           (mkExn ClsException [Str "division"; Str "by zero"]
              ("Traceback (most recent call last):" ++ nl
               ++ "ZeroDivisionError: division by zero" ++ nl))
           "division by zero" eq_refl eq_refl).
Defined.

(** X12: for a [BailOut] whose [args] are all [str] and whose joined
    message is not blank, [_format_bailout_exception] gives [Bail out! ],
    the message stripped and escaped, and a line feed. *)
Theorem format_bailout_text (e : exn) (msg : string) :
  message e = Some msg ->
  blank msg = false ->
  _format_bailout_exception e =
  Return ("Bail out! " ++ escape_spec (strip msg) ++ nl).
Proof.
  intros Hm H. rewrite (format_bailout_message e msg Hm H).
  now rewrite strip_escape_spec.
Qed.

Lemma format_bailout_text_witness :
  _format_bailout_exception
    (mkExn ClsBailOut [Str " fuse #2"; Str "blown "] "") =
  Return ("Bail out! fuse \#2 blown" ++ nl).
Proof.
  exact (format_bailout_text (mkExn ClsBailOut [Str " fuse #2"; Str "blown "] "")
           " fuse #2 blown " eq_refl eq_refl).
Defined.

(** ** More on the session *)

(** X13: in multi mode with the root-plan flag off, when all the plans
    return, the report is the version line and the blocks of the plans:
    no root plan line and no roll-up line. *)
Theorem multi_mode_no_root {World} (plans : plans_arg World)
    (st : State World) (results : list bool) (st2 : State World) :
  single_plan plans = None ->
  plans_run (plans_of plans) (written 0 ["TAP version 14"] st) results st2 ->
  execute_test_plans plans false st = (Return tt, st2).
Proof.
  intros Hm Hrun.
  rewrite (execute_multi plans false st Hm). cbv iota.
  rewrite <- (app_nil_r (plans_of plans)).
  rewrite (plans_run_loop _ _ _ _ _ Hrun). reflexivity.
Qed.

Lemma multi_mode_no_root_witness :
  execute_test_plans (PlanTuple [Sample.pass_plan; Sample.math_plan])
    false Sample.start =
  (Return tt,
   mkState 3 ["TAP version 14" ++ nl;
              "# Tests for test_pass.py" ++ nl;
              "    1..1" ++ nl; "    ok 1" ++ nl;
              "# Tests for test_math.py" ++ nl;
              "    1..2" ++ nl; "    ok 1" ++ nl; "    not ok 2 - sum" ++ nl]).
Proof.
  exact (multi_mode_no_root
    (PlanTuple [Sample.pass_plan; Sample.math_plan]) Sample.start
    [true; false]
    (mkState 3 ["TAP version 14" ++ nl;
                "# Tests for test_pass.py" ++ nl;
                "    1..1" ++ nl; "    ok 1" ++ nl;
                "# Tests for test_math.py" ++ nl;
                "    1..2" ++ nl; "    ok 1" ++ nl;
                "    not ok 2 - sum" ++ nl])
    eq_refl
    (plans_run_cons Sample.pass_plan [Sample.math_plan]
       (mkState 0 ["TAP version 14" ++ nl]) true
       (mkState 1 ["TAP version 14" ++ nl;
                   "# Tests for test_pass.py" ++ nl;
                   "    1..1" ++ nl; "    ok 1" ++ nl])
       [false] _ eq_refl
       (plans_run_cons Sample.math_plan [] _ false _ [] _ eq_refl
          (plans_run_nil _)))).
Defined.

(** X14: one plan given directly, in a list or in a tuple runs the same
    way, and the root-plan flag has no effect on it. *)
Theorem single_plan_forms_agree {World} (plan : Plan World)
    (root_plan root_plan' : bool) (st : State World) :
  execute_test_plans (PlanList [plan]) root_plan st =
    execute_test_plans (OnePlan plan) root_plan' st /\
  execute_test_plans (PlanTuple [plan]) root_plan st =
    execute_test_plans (OnePlan plan) root_plan' st.
Proof.
  rewrite (execute_single (PlanList [plan]) root_plan plan st eq_refl).
  rewrite (execute_single (PlanTuple [plan]) root_plan plan st eq_refl).
  rewrite (execute_single (OnePlan plan) root_plan' plan st eq_refl).
  split; reflexivity.
Qed.

Lemma runner_raise_class {World} n (plan : Plan World)
    (st : State World) e (st' : State World) :
  _execute_test_plan plan (_build_stream_writer n) st = (Raise e, st') ->
  exists e0, stops (Some e0) = true /\ e = in_flight e0.
Proof.
  intro H.
  destruct (skipped plan) eqn:Hs.
  { rewrite (skipped_or_empty_plan_aux n plan st (or_introl Hs)) in H.
    discriminate. }
  destruct (test_points plan) as [|t ts] eqn:Hp.
  { rewrite (skipped_or_empty_plan_aux n plan st (or_intror Hp)) in H.
    discriminate. }
  rewrite execute_test_plan_runs in H; [|exact Hs | now rewrite Hp].
  rewrite points_loop_eq in H.
  destruct (outcomes _ _) as [os w].
  injection H as H _.
  apply loop_result_raise in H as (e0 & _ & H1 & H2). now exists e0.
Qed.

Lemma in_flight_not_bailout (e0 : exn) :
  stops (Some e0) = true -> is_BailOut (in_flight e0) = false ->
  exn_cls (in_flight e0) = ClsBaseException \/ in_flight e0 = join_TypeError.
Proof.
  intros Hs Hb.
  destruct (stops_cases e0 Hs) as [[E [Hc|Hc]] | [E _]].
  - rewrite E in Hb. unfold is_BailOut in Hb. rewrite Hc in Hb. discriminate.
  - left. now rewrite E.
  - now right.
Qed.

Lemma format_bailout_raise (e e' : exn) :
  _format_bailout_exception e = Raise e' -> e' = join_TypeError.
Proof.
  unfold _format_bailout_exception. rewrite join_args_message.
  destruct (message e); intro H; [discriminate | now injection H].
Qed.

Lemma plans_loop_raise {World} (plans : list (Plan World)) :
  forall (acc : list bool) (st : State World) e st',
  plans_loop plans acc st = (Raise e, st') ->
  exn_cls e = ClsBaseException \/ e = join_TypeError.
Proof.
  induction plans as [|p ps IH]; intros acc st e st' H.
  - discriminate.
  - rewrite plans_loop_step in H.
    destruct (_execute_test_plan p _ _) as [[b|e0] st1] eqn:E.
    + exact (IH _ _ _ _ H).
    + destruct (runner_raise_class _ _ _ _ _ E) as (x & Hx & ->).
      destruct (is_BailOut (in_flight x)) eqn:B.
      * destruct (_format_bailout_exception (in_flight x)) as [text|e'] eqn:F;
          [discriminate|].
        injection H as <- _. right. exact (format_bailout_raise _ _ F).
      * injection H as <- _. exact (in_flight_not_bailout x Hx B).
Qed.

(** X15: no [BailOut] leaves [execute_test_plans], in single or in multi
    mode: an exception that leaves it is an object of a class outside
    [Exception] (a [KeyboardInterrupt], say) or the [TypeError] of joining
    [args] that hold an item that is not a [str]. *)
Theorem session_raises_only {World} (plans : plans_arg World)
    (root_plan : bool) (st : State World) e (st' : State World) :
  execute_test_plans plans root_plan st = (Raise e, st') ->
  is_BailOut e = false /\
  (exn_cls e = ClsBaseException \/ e = join_TypeError).
Proof.
  intro H.
  assert (G : exn_cls e = ClsBaseException \/ e = join_TypeError).
  { destruct (single_plan plans) as [plan|] eqn:Hm.
    - rewrite (execute_single plans root_plan plan st Hm) in H.
      destruct (_execute_test_plan plan _ _) as [[b|e0] st1] eqn:E;
        [discriminate|].
      destruct (runner_raise_class _ _ _ _ _ E) as (x & Hx & ->).
      destruct (is_BailOut (in_flight x)) eqn:B.
      + destruct (_format_bailout_exception (in_flight x)) as [text|e'] eqn:F;
          [discriminate|].
        injection H as <- _. right. exact (format_bailout_raise _ _ F).
      + injection H as <- _. exact (in_flight_not_bailout x Hx B).
    - rewrite (execute_multi plans root_plan st Hm) in H.
      destruct (plans_loop _ _ _) as [[[results|]|e0] st1] eqn:E.
      + destruct root_plan; discriminate.
      + discriminate.
      + injection H as <- _. exact (plans_loop_raise _ _ _ _ _ E). }
  split; [|exact G].
  unfold is_BailOut. destruct G as [G | ->]; [now rewrite G | reflexivity].
Qed.

Lemma session_raises_only_witness :
  execute_test_plans (OnePlan Sample2.bail_code_plan) true Sample.start =
  (Raise join_TypeError, mkState 1 ["TAP version 14" ++ nl; "1..1" ++ nl])
  /\ is_BailOut join_TypeError = false.
Proof.
  split; [reflexivity|].
  exact (proj1 (session_raises_only
                  (OnePlan Sample2.bail_code_plan) true Sample.start
                  join_TypeError
                  (mkState 1 ["TAP version 14" ++ nl; "1..1" ++ nl])
                  eq_refl)).
Defined.

(** *** The stream only grows *)

Lemma extends_refl {World} (st : State World) : extends st st.
Proof. exists []. now rewrite app_nil_r. Qed.

Lemma extends_trans {World} (a b c : State World) :
  extends a b -> extends b c -> extends a c.
Proof.
  intros [l1 H1] [l2 H2]. exists (l1 +++ l2).
  now rewrite H2, H1, <- app_assoc.
Qed.

Lemma extends_written {World} n (lines : list string) (st : State World) :
  extends st (written n lines st).
Proof. eexists. reflexivity. Qed.

Lemma extends_written_cons {World} n (a : string) (b : list string)
    (st : State World) :
  extends (written n [a] st) (written n (a :: b) st).
Proof. rewrite (written_cons n a b st). apply extends_written. Qed.

Lemma runner_extends {World} n (plan : Plan World) (st : State World) :
  extends st (snd (_execute_test_plan plan (_build_stream_writer n) st)).
Proof.
  destruct (skipped plan) eqn:Hs.
  { rewrite (skipped_or_empty_plan_aux n plan st (or_introl Hs)).
    apply extends_written. }
  destruct (test_points plan) as [|t ts] eqn:Hp.
  { rewrite (skipped_or_empty_plan_aux n plan st (or_intror Hp)).
    apply extends_written. }
  rewrite execute_test_plan_runs; [|exact Hs | now rewrite Hp].
  rewrite points_loop_eq. destruct (outcomes _ _) as [os w].
  cbn [snd]. eapply extends_trans; [apply (extends_written n) |].
  eexists. unfold written at 1. cbn [stream]. reflexivity.
Qed.

Lemma plans_loop_extends {World} (plans : list (Plan World)) :
  forall (acc : list bool) (st : State World),
  extends st (snd (plans_loop plans acc st)).
Proof.
  induction plans as [|p ps IH]; intros acc st.
  - apply extends_refl.
  - rewrite plans_loop_step.
    assert (H := runner_extends 4 p
                   (written 0 ["# Tests for " ++ file_name p] st)).
    destruct (_execute_test_plan p _ _) as [[b|e] st1]. cbn [snd] in H.
    + eapply extends_trans; [apply (extends_written 0) |].
      eapply extends_trans; [exact H | apply IH].
    + cbn [snd] in H.
      assert (G : extends st st1).
      { eapply extends_trans; [apply (extends_written 0) | exact H]. }
      destruct (is_BailOut e); cbn [snd]; [|exact G].
      destruct (_format_bailout_exception e) as [text|e']; cbn [snd];
        [|exact G].
      eapply extends_trans; [exact G | apply extends_written].
Qed.

(** X16: every run of [execute_test_plans], whatever its input and
    however it ends, leaves what was in the stream in place and writes
    [TAP version 14] first. *)
Theorem session_output_appended {World} (plans : plans_arg World)
    (root_plan : bool) (st : State World) :
  exists rest,
    stream (snd (execute_test_plans plans root_plan st)) =
    stream st +++ ("TAP version 14" ++ nl) :: rest.
Proof.
  assert (G : extends (written 0 ["TAP version 14"] st)
                      (snd (execute_test_plans plans root_plan st))).
  { destruct (single_plan plans) as [plan|] eqn:Hm.
    - rewrite (execute_single plans root_plan plan st Hm).
      assert (H := runner_extends 0 plan (written 0 ["TAP version 14"] st)).
      destruct (_execute_test_plan plan _ _) as [[b|e] st1];
        cbn [snd] in *; [exact H|].
      destruct (is_BailOut e); cbn [snd]; [|exact H].
      destruct (_format_bailout_exception e) as [text|e']; cbn [snd];
        [|exact H].
      eapply extends_trans; [exact H | apply extends_written].
    - rewrite (execute_multi plans root_plan st Hm).
      match goal with
      | |- context [plans_loop ?ps ?acc ?s] =>
          assert (H := plans_loop_extends ps acc s);
          destruct (plans_loop ps acc s) as [[[results|]|e] st1]
      end; cbn [snd] in H.
      + assert (H0 : extends (written 0 ["TAP version 14"] st) st1).
        { eapply extends_trans; [|exact H]. apply extends_written_cons. }
        destruct root_plan; cbn [snd]; [|exact H0].
        eapply extends_trans; [exact H0 | apply extends_written].
      + cbn [snd]. eapply extends_trans; [|exact H].
        apply extends_written_cons.
      + cbn [snd]. eapply extends_trans; [|exact H].
        apply extends_written_cons. }
  destruct G as [rest G]. exists rest. rewrite G.
  unfold written. cbn [stream map]. now rewrite <- app_assoc.
Qed.

(** ** Discovery *)

Lemma substring_split (s : string) : forall k,
  k <= String.length s ->
  substring 0 k s ++ substring k (String.length s - k) s = s.
Proof.
  induction s as [|c s IH]; intros k Hk.
  - cbn in Hk. assert (k = 0) as -> by lia. reflexivity.
  - destruct k as [|k].
    + cbn [substring append String.length Nat.sub]. f_equal.
      specialize (IH 0 (Nat.le_0_l _)). cbn [append] in IH.
      rewrite Nat.sub_0_r in IH.
      destruct s; [reflexivity | exact IH].
    + cbn [String.length] in Hk. apply le_S_n in Hk.
      cbn [substring append String.length Nat.sub]. f_equal.
      exact (IH k Hk).
Qed.

Lemma endswith_drop_last (p s : string) :
  endswith p s = true -> drop_last (String.length p) s ++ p = s.
Proof.
  unfold endswith, drop_last. intro H.
  apply andb_true_iff in H as [Hl He].
  apply Nat.leb_le in Hl. apply String.eqb_eq in He.
  assert (E := substring_split s (String.length s - String.length p)
                 (Nat.le_sub_l _ _)).
  replace (String.length s - (String.length s - String.length p))
    with (String.length p) in E by lia.
  now rewrite He in E.
Qed.

Lemma prefix_test_app (m : string) :
  prefix "test_" (m ++ ".py") = true -> prefix "test_" m = true.
Proof.
  destruct m as [|a [|b [|c [|d [|e m]]]]]; cbn [prefix append]; intro H;
    repeat match goal with
           | H : context [ascii_dec ?x ?y] |- _ =>
               destruct (ascii_dec x y); try discriminate
           end;
    try reflexivity; apply prefix_empty.
Qed.

(** X17: for a directory entry [find_test_plans] loads, the type is that
    of a regular file, the module name imported is the file name without
    its [.py], and it starts with [test_]. *)
Theorem test_file_module_name (file_name : string) (file_type : N) :
  is_test_file (file_name, file_type) = true ->
  file_type = 0x8000%N /\
  drop_last 3 file_name ++ ".py" = file_name /\
  startswith "test_" (drop_last 3 file_name) = true.
Proof.
  unfold is_test_file. cbn [fst snd]. intro H.
  apply negb_true_iff, orb_false_iff in H as [H H3].
  apply orb_false_iff in H as [H1 H2].
  apply negb_false_iff in H1, H2, H3.
  apply N.eqb_eq in H3.
  assert (E := endswith_drop_last ".py" file_name H2).
  cbn [String.length] in E.
  split; [exact H3|]. split; [exact E|].
  unfold startswith in *. apply prefix_test_app. now rewrite E.
Qed.

Lemma test_file_module_name_witness :
  drop_last 3 "test_uart.py" ++ ".py" = "test_uart.py" /\
  startswith "test_" (drop_last 3 "test_uart.py") = true.
Proof.
  exact (proj2 (test_file_module_name "test_uart.py" 0x8000%N eq_refl)).
Defined.

Section DiscoveryFacts.

Context {World : Type}.
Variable exec_import : string -> Globals World -> option exn * Globals World.

Lemma find_steps_filter (listing : list (string * N)) :
  forall g : Globals World,
  fold_left (find_step exec_import) listing g =
  fold_left
    (fun g name_tuple =>
       snd (exec_import (drop_last 3 (fst name_tuple))
              (set_current_file_name (Some (fst name_tuple)) g)))
    (filter is_test_file listing) g.
Proof.
  induction listing as [|x xs IH]; intro g; [reflexivity|].
  cbn [fold_left filter]. unfold find_step at 2.
  destruct (is_test_file x); cbn [negb fold_left]; apply IH.
Qed.

End DiscoveryFacts.

(** X18: [find_test_plans] starts from an empty list of plans, imports
    the entries that are regular files named [test_*.py] and no others,
    in the order of the listing, each with its file name as the current
    one; what an import raises is dropped and what it did before raising
    stays; at the end the current file name is [None], and the value
    returned is the list of plans of the globals. *)
Theorem find_test_plans_loads {World}
    (exec_import : string -> Globals World -> option exn * Globals World)
    (listing : list (string * N)) (g : Globals World) :
  snd (find_test_plans exec_import listing g) =
    set_current_file_name None
      (fold_left
         (fun g name_tuple =>
            snd (exec_import (drop_last 3 (fst name_tuple))
                   (set_current_file_name (Some (fst name_tuple)) g)))
         (filter is_test_file listing)
         (set_test_plans [] g)) /\
  _current_file_name (snd (find_test_plans exec_import listing g)) = None /\
  fst (find_test_plans exec_import listing g) =
    _test_plans (snd (find_test_plans exec_import listing g)).
Proof.
  unfold find_test_plans. cbn [fst snd].
  rewrite find_steps_filter. repeat split.
Qed.

(** X19: a test file whose top-level code calls [build_plan] once gives,
    through [find_test_plans], one plan: it bears the name of the file,
    the description trimmed and the flag given, and has no test point. *)
Theorem build_plan_binds_file {World} (trace : string)
    (exec_import : string -> Globals World -> option exn * Globals World)
    (file_name : string) (description : option string) (skipped : bool)
    (g : Globals World) :
  is_test_file (file_name, S_IFREG) = true ->
  (forall g', snd (exec_import (drop_last 3 file_name) g') =
              snd (build_plan trace description skipped g')) ->
  fst (find_test_plans exec_import [(file_name, S_IFREG)] g) =
  [mkPlan file_name (_trim_empty_to_none description) skipped []].
Proof.
  intros Ht Hx. unfold find_test_plans. cbn [fst fold_left].
  unfold find_step. rewrite Ht. cbn [negb fst]. rewrite Hx.
  unfold build_plan. cbn [set_current_file_name _current_file_name truthy].
  assert (Hne : (file_name =? "") = false).
  { destruct file_name; [discriminate | reflexivity]. }
  rewrite Hne. reflexivity.
Qed.

Lemma build_plan_binds_file_witness :
  fst (find_test_plans (Sample2.one_plan_file (Some " uart ") false)
         [("test_uart.py", S_IFREG)] Sample2.no_globals) =
  [mkPlan "test_uart.py" (Some "uart") false []].
Proof.
  apply (build_plan_binds_file ""
           (Sample2.one_plan_file (Some " uart ") false)
           "test_uart.py" (Some " uart ") false Sample2.no_globals).
  - reflexivity.
  - intro g'. unfold Sample2.one_plan_file.
    destruct (build_plan "" (Some " uart ") false g') as [[plan|e] g''];
      reflexivity.
Defined.

(** X20: [build_plan] works only while a test file is being loaded: with
    no current file name (or an empty one) it raises [AssertionError] and
    leaves the globals as they were; that is so after every
    [find_test_plans]. *)
Theorem build_plan_needs_current_file {World} (trace : string)
    (description : option string) (skipped : bool) :
  (forall g : Globals World,
     truthy (_current_file_name g) = false ->
     build_plan trace description skipped g = (Raise (AssertionError trace), g))
  /\
  (forall (exec_import : string -> Globals World -> option exn * Globals World)
          (listing : list (string * N)) (g : Globals World),
     build_plan trace description skipped
       (snd (find_test_plans exec_import listing g)) =
     (Raise (AssertionError trace),
      snd (find_test_plans exec_import listing g))).
Proof.
  assert (H : forall g : Globals World,
     truthy (_current_file_name g) = false ->
     build_plan trace description skipped g
     = (Raise (AssertionError trace), g)).
  { intros g Hg. unfold build_plan. now rewrite Hg. }
  split; [exact H|]. intros exec_import listing g. apply H. reflexivity.
Qed.

(** A listing with a note, a directory and two test files, each of which
    builds a plan and then raises: both plans are found. *)
Example find_test_plans_broken_files :
  fst (find_test_plans Sample2.broken_file
         [("test_a.py", 0x8000%N); ("notes.txt", 0x8000%N);
          ("test_b.py", 0x4000%N); ("test_c.py", 0x8000%N)]
         Sample2.no_globals) =
  [mkPlan "test_a.py" (Some "test_a") false [];
   mkPlan "test_c.py" (Some "test_c") false []].
Proof. reflexivity. Qed.

(** ** Arguments that are not strings *)

(** A [ToDo] and a [Skip] raised with a number: the join in the handler
    raises before anything is written for the test point, and the second
    test point is not called. *)
Example todo_with_number :
  _execute_test_plan Sample2.todo_code_plan (_build_stream_writer 0)
    Sample.start =
  (Raise join_TypeError, mkState 1 ["1..2" ++ nl]).
Proof. reflexivity. Qed.

Example skip_with_number :
  _execute_test_plan Sample2.skip_code_plan (_build_stream_writer 0)
    Sample.start =
  (Raise join_TypeError, mkState 1 ["1..2" ++ nl]).
Proof. reflexivity. Qed.

(** A [BailOut] raised with a number, in single mode: it is caught, no
    bail-out line is written, and the [TypeError] leaves the function. *)
Example bailout_with_number_single :
  execute_test_plans (PlanList [Sample2.bail_code_plan]) false Sample.start =
  (Raise join_TypeError, mkState 1 ["TAP version 14" ++ nl; "1..1" ++ nl]).
Proof. reflexivity. Qed.
